(** * numpy_ros.geometry_msgs: conversions between ROS geometry messages
      and NumPy values

    A shallow embedding of [src/numpy_ros/geometry_msgs.py].  Each Python
    function becomes a Rocq function of the same name returning in the
    error monad [result]: an exception is an [Err].  The three libraries
    the module imports (NumPy, numpy-quaternion and the genpy message
    classes of [geometry_msgs.msg]) are modelled in the first part of the
    file, as far as the module uses them. *)

From Stdlib Require Import String List ZArith Bool Arith Lia.
From Stdlib Require Import Floats.PrimFloat Floats.FloatOps Floats.SpecFloat.
Import ListNotations.

Set Warnings "-inexact-float".
Local Open Scope string_scope.
Local Open Scope list_scope.
Local Open Scope nat_scope.

(** ** Exceptions and the error monad *)

(** The [raise] statements of the module use two Python classes,
    [ValueError] and [TypeError]; the reason tells the places apart. *)
Inductive value_reason : Type :=
| BadShape                 (* 'Expected ... of shape ..., received ...' *)
| BadHomogeneousComponent  (* '... last component is ... != 1.' *)
| NotHomogeneousMatrix     (* '... is not a homogeneous matrix.' *)
| BadArity                 (* 'Expected either position ... and rotation ...' *)
| AmbiguousTruthValue      (* NumPy: 'The truth value of an array with more
                              than one element is ambiguous.' *)
| CannotReshape            (* NumPy: 'cannot reshape array of size ...' *)
| CannotBroadcast.         (* NumPy: 'could not broadcast ...' *)

Inductive type_reason : Type :=
| UnsafeCast                                 (* 'Cannot safely cast array ...' *)
| MissingArgument (function parameter : string)
                           (* interpreter: 'f() missing 1 required positional
                              argument: ...' *)
| InvalidArguments         (* genpy: 'Invalid number of arguments ...' *)
| IllTypedField (field : string)
                           (* a field value that the message definition
                              does not allow; see [setattr] *)
| UnsizedObject.           (* 'len() of unsized object' *)

Inductive exn : Type :=
| ValueError (why : value_reason)
| TypeError (why : type_reason)
| AttributeError (attr : string)
| IndexError
| ZeroDivisionError.

(** The names the specification gives to the failures of the module. *)
Definition ShapeError : exn := ValueError BadShape.
Definition CastError : exn := TypeError UnsafeCast.
Definition InvalidHomogeneousComponentError : exn := ValueError BadHomogeneousComponent.
Definition InvalidTransformError : exn := ValueError NotHomogeneousMatrix.
Definition ArityError : exn := ValueError BadArity.

Inductive result (A : Type) : Type :=
| Ok (a : A)
| Err (e : exn).
Arguments Ok {A} a.
Arguments Err {A} e.

Definition bind {A B : Type} (r : result A) (k : A -> result B) : result B :=
  match r with
  | Ok a => k a
  | Err e => Err e
  end.

Notation "x <- r ;; k" := (bind r (fun x => k))
  (at level 61, r at next level, right associativity).
Notation "r ;;; k" := (bind r (fun _ => k))
  (at level 61, right associativity).

(** [for x in xs: ys.append(f(x))], stopping at the first exception. *)
Fixpoint mapM {A B : Type} (f : A -> result B) (xs : list A) : result (list B) :=
  match xs with
  | [] => Ok []
  | x :: xs' => y <- f x ;; ys <- mapM f xs' ;; Ok (y :: ys)
  end.

Definition is_ok {A : Type} (r : result A) : bool :=
  match r with Ok _ => true | Err _ => false end.

(** ** NumPy *)

(** *** Numbers

    A Python [float] and a NumPy [float64] are binary64 numbers: the
    kernel's [float].  Rounding to a narrower binary format goes through
    [SpecFloat]. *)

Definition round_to (prec emax : Z) (v : float) : float :=
  match Prim2SF v with
  | S754_finite s m e =>
      SF2Prim (binary_normalize prec emax (cond_Zopp s (Zpos m)) e s)
  | _ => v
  end.

(** The value kept when a number is stored as [float32]. *)
Definition round32 : float -> float := round_to 24 128.
Definition round16 : float -> float := round_to 11 16.

(** [float(z)] for a Python integer in the range of binary64. *)
Definition float_of_Z (z : Z) : float :=
  SF2Prim (binary_normalize 53 1024 z 0 false).

Definition isfinite (v : float) : bool := (abs v <? infinity)%float.

(** [np.isclose(a, b)] on two scalars, with the default tolerances
    [rtol=1e-05], [atol=1e-08] and [equal_nan=False]. *)
Definition within_tol (x y atol rtol : float) : bool :=
  (abs (x - y) <=? atol + rtol * abs y)%float.

Definition isclose (a b : float) : bool :=
  if isfinite a && isfinite b
  then within_tol a b 1e-8%float 1e-5%float
  else (a =? b)%float.

(** *** dtypes

    The integer and floating-point dtypes of up to 64 bits, and
    [object]: the dtypes the properties speak of.  NumPy has more of
    them (bool, complex, longdouble, strings), so a property that rests
    on the cast check is stated by the outcome of [can_cast], not by a
    case distinction on the dtype.  A Python class that is not a NumPy
    scalar type, given where a dtype is expected, is read as [object]
    ([np.dtype(SomeClass)] is [dtype('O')]). *)
Inductive dtype : Type :=
| uint8 | uint16 | uint32 | uint64
| int8 | int16 | int32 | int64
| float16 | float32 | float64
| object_.

(** [np.can_cast(from_, to)] with the default [casting='safe']. *)
Definition can_cast (from_ to : dtype) : bool :=
  match from_, to with
  | _, object_ => true
  | object_, _ => false
  | uint8, (uint8 | uint16 | uint32 | uint64 | int16 | int32 | int64
            | float16 | float32 | float64) => true
  | uint16, (uint16 | uint32 | uint64 | int32 | int64 | float32 | float64) => true
  | uint32, (uint32 | uint64 | int64 | float64) => true
  | uint64, (uint64 | float64) => true
  | int8, (int8 | int16 | int32 | int64 | float16 | float32 | float64) => true
  | int16, (int16 | int32 | int64 | float32 | float64) => true
  | int32, (int32 | int64 | float64) => true
  | int64, (int64 | float64) => true
  | float16, (float16 | float32 | float64) => true
  | float32, (float32 | float64) => true
  | float64, float64 => true
  | _, _ => false
  end.

(** *** Arrays

    An array is its dtype, its shape and its elements in row-major (C)
    order.  An element is kept by its value, a binary64 number: this
    covers every element of the floating-point dtypes and of the integer
    dtypes up to 32 bits, and the 64-bit integers below 2^53 in
    magnitude. *)
Record ndarray : Type := mk_ndarray {
  dtype_of : dtype;
  shape : list nat;
  data : list float
}.

Definition size_of_shape (s : list nat) : nat := fold_right Nat.mul 1 s.
Definition ndim (a : ndarray) : nat := length (shape a).

(** The elements fill the shape. *)
Definition well_formed (a : ndarray) : Prop :=
  length (data a) = size_of_shape (shape a).

Definition shape_eqb (s t : list nat) : bool :=
  if list_eq_dec Nat.eq_dec s t then true else false.

(** The value a number takes in an array of a floating-point dtype, and
    [np.array(values, dtype=dt)] on a list of numbers for such a dtype
    (the module asks for [float32] and [float64]). *)
Definition cast (dt : dtype) (v : float) : float :=
  match dt with
  | float32 => round32 v
  | float16 => round16 v
  | _ => v
  end.

Definition np_array (values : list float) (dt : dtype) : ndarray :=
  mk_ndarray dt [length values] (map (cast dt) values).

(** [a[i]] on a 1-D array and [a[i, j]] on a 2-D array, for indices
    from zero up. *)
Definition item (a : ndarray) (i : nat) : result float :=
  match shape a with
  | [n] =>
      if i <? n then
        match nth_error (data a) i with
        | Some v => Ok v
        | None => Err IndexError
        end
      else Err IndexError
  | _ => Err IndexError
  end.

Definition item2 (a : ndarray) (i j : nat) : result float :=
  match shape a with
  | [r; c] =>
      if (i <? r) && (j <? c) then
        match nth_error (data a) (i * c + j) with
        | Some v => Ok v
        | None => Err IndexError
        end
      else Err IndexError
  | _ => Err IndexError
  end.

(** [a[:k]] on a 1-D array. *)
Definition slice_to (a : ndarray) (k : nat) : list float := firstn k (data a).

(** [len(a)]. *)
Definition len (a : ndarray) : result nat :=
  match shape a with
  | [] => Err (TypeError UnsizedObject)
  | n :: _ => Ok n
  end.

(** [a.reshape(r, c)]. *)
Definition reshape (a : ndarray) (r c : nat) : result ndarray :=
  if length (data a) =? r * c
  then Ok (mk_ndarray (dtype_of a) [r; c] (data a))
  else Err (ValueError CannotReshape).

(** [a.flatten()]. *)
Definition flatten (a : ndarray) : ndarray :=
  mk_ndarray (dtype_of a) [length (data a)] (data a).

(** [a.squeeze()]: the axes of length one are dropped. *)
Definition squeeze (a : ndarray) : ndarray :=
  mk_ndarray (dtype_of a) (filter (fun n => negb (n =? 1)) (shape a)) (data a).

(** Column [j] of a 2-D array with [r] rows and [c] columns, as a list. *)
Definition column (d : list float) (r c j : nat) : list float :=
  map (fun i => nth (i * c + j) d 0%float) (seq 0 r).

(** [np.hsplit(a, a.shape[1])], as the module calls it, on a 2-D array:
    one [(r, 1)] array per column.  [np.split] computes
    [a.shape[1] % sections] first, which divides by zero for an array
    without columns.  With fewer than two dimensions [a.shape[1]] is out
    of range. *)
Definition hsplit (a : ndarray) (sections : nat) : result (list ndarray) :=
  match sections with
  | 0 => Err ZeroDivisionError
  | _ =>
      match shape a with
      | [r; c] =>
          Ok (map (fun j => mk_ndarray (dtype_of a) [r; 1] (column (data a) r c j))
                  (seq 0 c))
      | _ => Err IndexError
      end
  end.

(** [a.T]: the transpose of a 2-D array; an array of fewer dimensions is
    its own transpose.  (The module transposes only what [np.array]
    builds from a list of 1-D arrays.) *)
Definition transpose (a : ndarray) : ndarray :=
  match shape a with
  | [r; c] =>
      mk_ndarray (dtype_of a) [c; r]
        (flat_map (fun j => column (data a) r c j) (seq 0 c))
  | _ => a
  end.

(** [np.array(rows, dtype=dt)] on a list of 1-D arrays of one length. *)
Definition np_stack (rows : list ndarray) (dt : dtype) : ndarray :=
  match rows with
  | [] => mk_ndarray dt [0] []
  | r0 :: _ =>
      mk_ndarray dt (length rows :: shape r0)
        (map (cast dt) (flat_map data rows))
  end.

(** *** Python numbers and [np.min_scalar_type] *)

Inductive scalar : Type :=
| PyFloat (v : float)
| PyInt (z : Z).

(** [float(x)]. *)
Definition py_float (x : scalar) : float :=
  match x with
  | PyFloat v => v
  | PyInt z => float_of_Z z
  end.

(** The smallest floating-point dtype whose range holds [v]. *)
Definition min_float_type (wide : bool) (v : float) : dtype :=
  if ((-65000 <? v) && (v <? 65000))%float || negb (isfinite v) then float16
  else if wide && ((-3.4e38 <? v) && (v <? 3.4e38))%float then float32
  else if wide then float64 else float32.

(** The smallest integer dtype that holds [z]; [object] beyond 64 bits. *)
Definition min_int_type (z : Z) : dtype :=
  if (0 <=? z)%Z then
    if (z <=? 255)%Z then uint8
    else if (z <=? 65535)%Z then uint16
    else if (z <=? 4294967295)%Z then uint32
    else if (z <=? 18446744073709551615)%Z then uint64
    else object_
  else
    if (-128 <=? z)%Z then int8
    else if (-32768 <=? z)%Z then int16
    else if (-2147483648 <=? z)%Z then int32
    else if (-9223372036854775808 <=? z)%Z then int64
    else object_.

(** The same on an integer element, held by its value. *)
Definition min_int_type_of_value (v : float) : dtype :=
  if (0 <=? v)%float then
    if (v <=? 255)%float then uint8
    else if (v <=? 65535)%float then uint16
    else if (v <=? 4294967295)%float then uint32
    else uint64
  else
    if (-128 <=? v)%float then int8
    else if (-32768 <=? v)%float then int16
    else if (-2147483648 <=? v)%float then int32
    else int64.

Definition min_scalar_type_of_scalar (x : scalar) : dtype :=
  match x with
  | PyFloat v => min_float_type true v
  | PyInt z => min_int_type z
  end.

(** [np.min_scalar_type(a)] on an array: "for non-scalar array a,
    returns the vector's dtype unmodified"; a 0-d array counts as a
    scalar and is judged by its value. *)
Definition min_scalar_type (a : ndarray) : dtype :=
  match shape a, data a with
  | [], v :: _ =>
      match dtype_of a with
      | float64 => min_float_type true v
      | float32 => min_float_type false v
      | float16 => float16
      | object_ => object_
      | _ => min_int_type_of_value v
      end
  | _, _ => dtype_of a
  end.

(** ** numpy-quaternion *)

(** [np.quaternion(w, x, y, z)]: the scalar part comes first, in the
    constructor and in [quaternion.as_float_array]. *)
Record quaternion : Type := np_quaternion {
  q_w : float;
  q_x : float;
  q_y : float;
  q_z : float
}.

Definition as_float_array (q : quaternion) : ndarray :=
  np_array [q_w q; q_x q; q_y q; q_z q] float64.

(** What the encoders receive: an array or a quaternion. *)
Inductive numpy_obj : Type :=
| Array (a : ndarray)
| Quat (q : quaternion).

(** ** The message classes of geometry_msgs.msg *)

Inductive msg_class : Type :=
| Accel | AccelStamped | AccelWithCovariance | AccelWithCovarianceStamped
| Inertia | InertiaStamped | Point | Point32 | PointStamped | Polygon
| PolygonStamped | Pose | PoseStamped | Quaternion | QuaternionStamped
| Transform | TransformStamped | Twist
| TwistStamped | TwistWithCovariance | TwistWithCovarianceStamped | Vector3
| Vector3Stamped | Wrench | WrenchStamped.

Definition msg_class_eq_dec (a b : msg_class) : {a = b} + {a <> b}.
Proof. decide equality. Defined.

Definition is_ (a b : msg_class) : bool :=
  if msg_class_eq_dec a b then true else false.

(** The fields of the messages, as the message definitions of
    geometry_msgs type them.  A numeric field holds the number it was
    given, by its value: genpy converts to the width of the field only
    when the message is serialized. *)
Record Header : Type := mk_Header {
  header_seq : Z;
  header_stamp : Z * Z;
  header_frame_id : string
}.

(** Vector3, Point and Point32. *)
Record xyz : Type := mk_xyz { x : float; y : float; z : float }.

(** Quaternion: the fields x, y, z, w. *)
Record xyzw : Type := mk_xyzw { qx : float; qy : float; qz : float; qw : float }.

(** Accel and Twist. *)
Record linear_angular : Type := mk_linear_angular { linear : xyz; angular : xyz }.

Record force_torque : Type := mk_force_torque { force : xyz; torque : xyz }.

(** AccelWithCovariance (field accel) and TwistWithCovariance (field
    twist); covariance is float64[36]. *)
Record with_covariance : Type := mk_with_covariance {
  kinematics : linear_angular;
  covariance : list float
}.

Record inertia : Type := mk_inertia {
  m : float;
  com : xyz;
  ixx : float; ixy : float; ixz : float;
  iyy : float; iyz : float; izz : float
}.

Record pose : Type := mk_pose { position : xyz; orientation : xyzw }.

Record transform : Type := mk_transform { translation : xyz; rotation : xyzw }.

Inductive msg : Type :=
| Msg_Vector3 (v : xyz)
| Msg_Point (v : xyz)
| Msg_Point32 (v : xyz)
| Msg_Quaternion (q : xyzw)
| Msg_Accel (a : linear_angular)
| Msg_Twist (t : linear_angular)
| Msg_Wrench (w : force_torque)
| Msg_AccelWithCovariance (a : with_covariance)
| Msg_TwistWithCovariance (t : with_covariance)
| Msg_Inertia (i : inertia)
| Msg_Polygon (points : list xyz)
| Msg_Pose (p : pose)
| Msg_Transform (t : transform)
| Msg_AccelStamped (header : Header) (accel : linear_angular)
| Msg_AccelWithCovarianceStamped (header : Header) (accel : with_covariance)
| Msg_InertiaStamped (header : Header) (inertia : inertia)
| Msg_PointStamped (header : Header) (point : xyz)
| Msg_PolygonStamped (header : Header) (polygon : list xyz)
| Msg_PoseStamped (header : Header) (pose : pose)
| Msg_QuaternionStamped (header : Header) (quaternion : xyzw)
| Msg_TransformStamped (header : Header) (child_frame_id : string)
    (transform : transform)
| Msg_TwistStamped (header : Header) (twist : linear_angular)
| Msg_TwistWithCovarianceStamped (header : Header) (twist : with_covariance)
| Msg_Vector3Stamped (header : Header) (vector : xyz)
| Msg_WrenchStamped (header : Header) (wrench : force_torque).

(** [message.__class__]. *)
Definition class_of (message : msg) : msg_class :=
  match message with
  | Msg_Vector3 _ => Vector3
  | Msg_Point _ => Point
  | Msg_Point32 _ => Point32
  | Msg_Quaternion _ => Quaternion
  | Msg_Accel _ => Accel
  | Msg_Twist _ => Twist
  | Msg_Wrench _ => Wrench
  | Msg_AccelWithCovariance _ => AccelWithCovariance
  | Msg_TwistWithCovariance _ => TwistWithCovariance
  | Msg_Inertia _ => Inertia
  | Msg_Polygon _ => Polygon
  | Msg_Pose _ => Pose
  | Msg_Transform _ => Transform
  | Msg_AccelStamped _ _ => AccelStamped
  | Msg_AccelWithCovarianceStamped _ _ => AccelWithCovarianceStamped
  | Msg_InertiaStamped _ _ => InertiaStamped
  | Msg_PointStamped _ _ => PointStamped
  | Msg_PolygonStamped _ _ => PolygonStamped
  | Msg_PoseStamped _ _ => PoseStamped
  | Msg_QuaternionStamped _ _ => QuaternionStamped
  | Msg_TransformStamped _ _ _ => TransformStamped
  | Msg_TwistStamped _ _ => TwistStamped
  | Msg_TwistWithCovarianceStamped _ _ => TwistWithCovarianceStamped
  | Msg_Vector3Stamped _ _ => Vector3Stamped
  | Msg_WrenchStamped _ _ => WrenchStamped
  end.

(** [isinstance(message, cls)]: no message class derives from another. *)
Definition isinstance (message : msg) (cls : msg_class) : bool :=
  is_ (class_of message) cls.

(** [getattr(message, name)] for the attributes that hold a message. *)
Definition getattr (message : msg) (name : string) : result msg :=
  match message, name with
  | Msg_Accel a, "linear" | Msg_Twist a, "linear" => Ok (Msg_Vector3 (linear a))
  | Msg_Accel a, "angular" | Msg_Twist a, "angular" => Ok (Msg_Vector3 (angular a))
  | Msg_Wrench w, "force" => Ok (Msg_Vector3 (force w))
  | Msg_Wrench w, "torque" => Ok (Msg_Vector3 (torque w))
  | Msg_AccelWithCovariance a, "accel" => Ok (Msg_Accel (kinematics a))
  | Msg_TwistWithCovariance t, "twist" => Ok (Msg_Twist (kinematics t))
  | Msg_Inertia i, "com" => Ok (Msg_Vector3 (com i))
  | Msg_Pose p, "position" => Ok (Msg_Point (position p))
  | Msg_Pose p, "orientation" => Ok (Msg_Quaternion (orientation p))
  | Msg_Transform t, "translation" => Ok (Msg_Vector3 (translation t))
  | Msg_Transform t, "rotation" => Ok (Msg_Quaternion (rotation t))
  | Msg_AccelStamped _ a, "accel" => Ok (Msg_Accel a)
  | Msg_AccelWithCovarianceStamped _ a, "accel" => Ok (Msg_AccelWithCovariance a)
  | Msg_InertiaStamped _ i, "inertia" => Ok (Msg_Inertia i)
  | Msg_PointStamped _ p, "point" => Ok (Msg_Point p)
  | Msg_PolygonStamped _ p, "polygon" => Ok (Msg_Polygon p)
  | Msg_PoseStamped _ p, "pose" => Ok (Msg_Pose p)
  | Msg_QuaternionStamped _ q, "quaternion" => Ok (Msg_Quaternion q)
  | Msg_TransformStamped _ _ t, "transform" => Ok (Msg_Transform t)
  | Msg_TwistStamped _ t, "twist" => Ok (Msg_Twist t)
  | Msg_TwistWithCovarianceStamped _ t, "twist" => Ok (Msg_TwistWithCovariance t)
  | Msg_Vector3Stamped _ v, "vector" => Ok (Msg_Vector3 v)
  | Msg_WrenchStamped _ w, "wrench" => Ok (Msg_Wrench w)
  | _, _ => Err (AttributeError name)
  end.

(** The same for the attributes that hold a number, ... *)
Definition getattr_float (message : msg) (name : string) : result float :=
  match message, name with
  | Msg_Vector3 v, "x" | Msg_Point v, "x" | Msg_Point32 v, "x" => Ok (x v)
  | Msg_Vector3 v, "y" | Msg_Point v, "y" | Msg_Point32 v, "y" => Ok (y v)
  | Msg_Vector3 v, "z" | Msg_Point v, "z" | Msg_Point32 v, "z" => Ok (z v)
  | Msg_Quaternion q, "x" => Ok (qx q)
  | Msg_Quaternion q, "y" => Ok (qy q)
  | Msg_Quaternion q, "z" => Ok (qz q)
  | Msg_Quaternion q, "w" => Ok (qw q)
  | Msg_Inertia i, "m" => Ok (m i)
  | Msg_Inertia i, "ixx" => Ok (ixx i)
  | Msg_Inertia i, "ixy" => Ok (ixy i)
  | Msg_Inertia i, "ixz" => Ok (ixz i)
  | Msg_Inertia i, "iyy" => Ok (iyy i)
  | Msg_Inertia i, "iyz" => Ok (iyz i)
  | Msg_Inertia i, "izz" => Ok (izz i)
  | _, _ => Err (AttributeError name)
  end.

(** ... a list of numbers, ... *)
Definition getattr_floats (message : msg) (name : string) : result (list float) :=
  match message, name with
  | Msg_AccelWithCovariance a, "covariance"
  | Msg_TwistWithCovariance a, "covariance" => Ok (covariance a)
  | _, _ => Err (AttributeError name)
  end.

(** ... or a list of messages. *)
Definition getattr_list (message : msg) (name : string) : result (list msg) :=
  match message, name with
  | Msg_Polygon ps, "points" => Ok (map Msg_Point32 ps)
  | _, _ => Err (AttributeError name)
  end.

(** *** The constructors of the message classes (genpy)

    The constructor [Message.__init__] creates the message with the
    default value of every field and sets the fields it is given: by
    position, when there are as many arguments as fields, or by name,
    when each name is a field.  genpy checks the type of a field value
    only when the message is serialized; the messages of this model are
    typed, so a value that the message definition does not allow is
    reported when it is set, as [IllTypedField]. *)
Inductive value : Type :=
| VFloat (v : float)
| VFloats (l : list float)
| VMsg (message : msg)
| VMsgs (l : list msg).

Definition slots (cls : msg_class) : list string :=
  match cls with
  | Vector3 | Point | Point32 => ["x"; "y"; "z"]
  | Quaternion => ["x"; "y"; "z"; "w"]
  | Accel | Twist => ["linear"; "angular"]
  | Wrench => ["force"; "torque"]
  | AccelWithCovariance => ["accel"; "covariance"]
  | TwistWithCovariance => ["twist"; "covariance"]
  | Inertia => ["m"; "com"; "ixx"; "ixy"; "ixz"; "iyy"; "iyz"; "izz"]
  | Polygon => ["points"]
  | Pose => ["position"; "orientation"]
  | Transform => ["translation"; "rotation"]
  | AccelStamped | AccelWithCovarianceStamped => ["header"; "accel"]
  | InertiaStamped => ["header"; "inertia"]
  | PointStamped => ["header"; "point"]
  | PolygonStamped => ["header"; "polygon"]
  | PoseStamped => ["header"; "pose"]
  | QuaternionStamped => ["header"; "quaternion"]
  | TransformStamped => ["header"; "child_frame_id"; "transform"]
  | TwistStamped | TwistWithCovarianceStamped => ["header"; "twist"]
  | Vector3Stamped => ["header"; "vector"]
  | WrenchStamped => ["header"; "wrench"]
  end.

Definition zero_xyz : xyz := mk_xyz 0 0 0.
Definition zero_xyzw : xyzw := mk_xyzw 0 0 0 0.
Definition zero_linear_angular : linear_angular := mk_linear_angular zero_xyz zero_xyz.
Definition zero_force_torque : force_torque := mk_force_torque zero_xyz zero_xyz.
Definition zero_with_covariance : with_covariance :=
  mk_with_covariance zero_linear_angular (repeat 0%float 36).
Definition zero_inertia : inertia := mk_inertia 0 zero_xyz 0 0 0 0 0 0.
Definition zero_pose : pose := mk_pose zero_xyz zero_xyzw.
Definition zero_transform : transform := mk_transform zero_xyz zero_xyzw.
Definition zero_Header : Header := mk_Header 0 (0, 0)%Z "".

Definition default_msg (cls : msg_class) : msg :=
  match cls with
  | Vector3 => Msg_Vector3 zero_xyz
  | Point => Msg_Point zero_xyz
  | Point32 => Msg_Point32 zero_xyz
  | Quaternion => Msg_Quaternion zero_xyzw
  | Accel => Msg_Accel zero_linear_angular
  | Twist => Msg_Twist zero_linear_angular
  | Wrench => Msg_Wrench zero_force_torque
  | AccelWithCovariance => Msg_AccelWithCovariance zero_with_covariance
  | TwistWithCovariance => Msg_TwistWithCovariance zero_with_covariance
  | Inertia => Msg_Inertia zero_inertia
  | Polygon => Msg_Polygon []
  | Pose => Msg_Pose zero_pose
  | Transform => Msg_Transform zero_transform
  | AccelStamped => Msg_AccelStamped zero_Header zero_linear_angular
  | AccelWithCovarianceStamped =>
      Msg_AccelWithCovarianceStamped zero_Header zero_with_covariance
  | InertiaStamped => Msg_InertiaStamped zero_Header zero_inertia
  | PointStamped => Msg_PointStamped zero_Header zero_xyz
  | PolygonStamped => Msg_PolygonStamped zero_Header []
  | PoseStamped => Msg_PoseStamped zero_Header zero_pose
  | QuaternionStamped => Msg_QuaternionStamped zero_Header zero_xyzw
  | TransformStamped => Msg_TransformStamped zero_Header "" zero_transform
  | TwistStamped => Msg_TwistStamped zero_Header zero_linear_angular
  | TwistWithCovarianceStamped =>
      Msg_TwistWithCovarianceStamped zero_Header zero_with_covariance
  | Vector3Stamped => Msg_Vector3Stamped zero_Header zero_xyz
  | WrenchStamped => Msg_WrenchStamped zero_Header zero_force_torque
  end.

Definition set_xyz (v : xyz) (name : string) (a : float) : xyz :=
  match name with
  | "x" => mk_xyz a (y v) (z v)
  | "y" => mk_xyz (x v) a (z v)
  | _ => mk_xyz (x v) (y v) a
  end.

Definition set_xyzw (q : xyzw) (name : string) (a : float) : xyzw :=
  match name with
  | "x" => mk_xyzw a (qy q) (qz q) (qw q)
  | "y" => mk_xyzw (qx q) a (qz q) (qw q)
  | "z" => mk_xyzw (qx q) (qy q) a (qw q)
  | _ => mk_xyzw (qx q) (qy q) (qz q) a
  end.

Definition set_inertia (i : inertia) (name : string) (a : float) : inertia :=
  match name with
  | "m" => mk_inertia a (com i) (ixx i) (ixy i) (ixz i) (iyy i) (iyz i) (izz i)
  | "ixx" => mk_inertia (m i) (com i) a (ixy i) (ixz i) (iyy i) (iyz i) (izz i)
  | "ixy" => mk_inertia (m i) (com i) (ixx i) a (ixz i) (iyy i) (iyz i) (izz i)
  | "ixz" => mk_inertia (m i) (com i) (ixx i) (ixy i) a (iyy i) (iyz i) (izz i)
  | "iyy" => mk_inertia (m i) (com i) (ixx i) (ixy i) (ixz i) a (iyz i) (izz i)
  | "iyz" => mk_inertia (m i) (com i) (ixx i) (ixy i) (ixz i) (iyy i) a (izz i)
  | _ => mk_inertia (m i) (com i) (ixx i) (ixy i) (ixz i) (iyy i) (iyz i) a
  end.

Definition as_Point32 (p : msg) : result xyz :=
  match p with
  | Msg_Point32 v => Ok v
  | _ => Err (TypeError (IllTypedField "points"))
  end.

(** [setattr(message, name, v)] as the constructor does it: [name] is
    one of the fields of the class. *)
Definition setattr (message : msg) (name : string) (v : value) : result msg :=
  if negb (existsb (String.eqb name) (slots (class_of message)))
  then Err (AttributeError name) else
  match message, name, v with
  | Msg_Vector3 p, _, VFloat a => Ok (Msg_Vector3 (set_xyz p name a))
  | Msg_Point p, _, VFloat a => Ok (Msg_Point (set_xyz p name a))
  | Msg_Point32 p, _, VFloat a => Ok (Msg_Point32 (set_xyz p name a))
  | Msg_Quaternion q, _, VFloat a => Ok (Msg_Quaternion (set_xyzw q name a))
  | Msg_Accel k, "linear", VMsg (Msg_Vector3 p) =>
      Ok (Msg_Accel (mk_linear_angular p (angular k)))
  | Msg_Accel k, "angular", VMsg (Msg_Vector3 p) =>
      Ok (Msg_Accel (mk_linear_angular (linear k) p))
  | Msg_Twist k, "linear", VMsg (Msg_Vector3 p) =>
      Ok (Msg_Twist (mk_linear_angular p (angular k)))
  | Msg_Twist k, "angular", VMsg (Msg_Vector3 p) =>
      Ok (Msg_Twist (mk_linear_angular (linear k) p))
  | Msg_Wrench k, "force", VMsg (Msg_Vector3 p) =>
      Ok (Msg_Wrench (mk_force_torque p (torque k)))
  | Msg_Wrench k, "torque", VMsg (Msg_Vector3 p) =>
      Ok (Msg_Wrench (mk_force_torque (force k) p))
  | Msg_AccelWithCovariance c, "accel", VMsg (Msg_Accel k) =>
      Ok (Msg_AccelWithCovariance (mk_with_covariance k (covariance c)))
  | Msg_AccelWithCovariance c, "covariance", VFloats l =>
      Ok (Msg_AccelWithCovariance (mk_with_covariance (kinematics c) l))
  | Msg_TwistWithCovariance c, "twist", VMsg (Msg_Twist k) =>
      Ok (Msg_TwistWithCovariance (mk_with_covariance k (covariance c)))
  | Msg_TwistWithCovariance c, "covariance", VFloats l =>
      Ok (Msg_TwistWithCovariance (mk_with_covariance (kinematics c) l))
  | Msg_Inertia i, "com", VMsg (Msg_Vector3 p) =>
      Ok (Msg_Inertia (mk_inertia (m i) p (ixx i) (ixy i) (ixz i)
                                  (iyy i) (iyz i) (izz i)))
  | Msg_Inertia i, "com", _ => Err (TypeError (IllTypedField name))
  | Msg_Inertia i, _, VFloat a => Ok (Msg_Inertia (set_inertia i name a))
  | Msg_Polygon _, _, VMsgs l => ps <- mapM as_Point32 l ;; Ok (Msg_Polygon ps)
  | Msg_Pose p, "position", VMsg (Msg_Point v) =>
      Ok (Msg_Pose (mk_pose v (orientation p)))
  | Msg_Pose p, "orientation", VMsg (Msg_Quaternion q) =>
      Ok (Msg_Pose (mk_pose (position p) q))
  | Msg_Transform t, "translation", VMsg (Msg_Vector3 v) =>
      Ok (Msg_Transform (mk_transform v (rotation t)))
  | Msg_Transform t, "rotation", VMsg (Msg_Quaternion q) =>
      Ok (Msg_Transform (mk_transform (translation t) q))
  | Msg_AccelStamped h _, "accel", VMsg (Msg_Accel k) => Ok (Msg_AccelStamped h k)
  | Msg_AccelWithCovarianceStamped h _, "accel", VMsg (Msg_AccelWithCovariance k) =>
      Ok (Msg_AccelWithCovarianceStamped h k)
  | Msg_InertiaStamped h _, "inertia", VMsg (Msg_Inertia i) =>
      Ok (Msg_InertiaStamped h i)
  | Msg_PointStamped h _, "point", VMsg (Msg_Point p) => Ok (Msg_PointStamped h p)
  | Msg_PolygonStamped h _, "polygon", VMsg (Msg_Polygon p) =>
      Ok (Msg_PolygonStamped h p)
  | Msg_PoseStamped h _, "pose", VMsg (Msg_Pose p) => Ok (Msg_PoseStamped h p)
  | Msg_QuaternionStamped h _, "quaternion", VMsg (Msg_Quaternion q) =>
      Ok (Msg_QuaternionStamped h q)
  | Msg_TransformStamped h c _, "transform", VMsg (Msg_Transform t) =>
      Ok (Msg_TransformStamped h c t)
  | Msg_TwistStamped h _, "twist", VMsg (Msg_Twist k) => Ok (Msg_TwistStamped h k)
  | Msg_TwistWithCovarianceStamped h _, "twist", VMsg (Msg_TwistWithCovariance k) =>
      Ok (Msg_TwistWithCovarianceStamped h k)
  | Msg_Vector3Stamped h _, "vector", VMsg (Msg_Vector3 p) =>
      Ok (Msg_Vector3Stamped h p)
  | Msg_WrenchStamped h _, "wrench", VMsg (Msg_Wrench k) =>
      Ok (Msg_WrenchStamped h k)
  | _, _, _ => Err (TypeError (IllTypedField name))
  end.

Fixpoint set_fields (message : msg) (fields : list (string * value)) : result msg :=
  match fields with
  | [] => Ok message
  | (name, v) :: rest => message' <- setattr message name v ;; set_fields message' rest
  end.

(** A call of the class with positional arguments. *)
Definition new_message (message_type : msg_class) (args : list value) : result msg :=
  if length args =? length (slots message_type)
  then set_fields (default_msg message_type) (combine (slots message_type) args)
  else Err (TypeError InvalidArguments).

(** A call of the class with keyword arguments. *)
Definition new_message_kw (message_type : msg_class)
    (kwargs : list (string * value)) : result msg :=
  set_fields (default_msg message_type) kwargs.

(** *** Calls

    The interpreter binds the arguments of a call to the parameters
    before the body runs: a function of two required parameters that is
    called with one argument raises [TypeError], whatever the argument. *)
Inductive call_args (A B : Type) : Type :=
| Args1 {X : Type} (a : X)
| Args2 (a : A) (b : B).
Arguments Args1 {A B X} a.
Arguments Args2 {A B} a b.

Definition call2 {A B R : Type} (name second : string)
    (f : A -> B -> result R) (args : call_args A B) : result R :=
  match args with
  | Args2 a b => f a b
  | Args1 _ => Err (TypeError (MissingArgument name second))
  end.

(** ** The module *)

(** Modelled from the spec: the decorators [converts_to_numpy] and
    [converts_to_message] of [numpy_ros.conversions], the registry, which
    is not part of this module.  A decorator associates the function with
    every class it lists and leaves the function as it is, callable under
    its own name. *)
Definition converts_to_numpy {F : Type} (classes : list msg_class) (function : F) : F :=
  function.

Definition converts_to_message {F : Type} (classes : list msg_class) (function : F) : F :=
  function.

(** A dict whose keys are classes, and [dict.get]. *)
Fixpoint dict_get {V : Type} (d : list (msg_class * V)) (key : msg_class) : option V :=
  match d with
  | [] => None
  | (k, v) :: rest => if is_ k key then Some v else dict_get rest key
  end.

Definition _stamped_type_to_attr : list (msg_class * string) :=
  [ (AccelStamped, "accel");
    (AccelWithCovarianceStamped, "accel");
    (InertiaStamped, "inertia");
    (PointStamped, "point");
    (PolygonStamped, "polygon");
    (PoseStamped, "pose");
    (QuaternionStamped, "quaternion");
    (TransformStamped, "transform");
    (TwistStamped, "twist");
    (TwistWithCovarianceStamped, "twist");
    (Vector3Stamped, "vector");
    (WrenchStamped, "wrench") ].

(** The truth value of [dict.get]'s result: [None] and the empty string
    are false. *)
Definition truthy (o : option string) : bool :=
  match o with
  | Some s => negb (String.eqb s "")
  | None => false
  end.

Definition _unstamp (message : msg) : result msg :=
  let attr_name := dict_get _stamped_type_to_attr (class_of message) in
  if truthy attr_name
  then getattr message (match attr_name with Some s => s | None => "" end)
  else Ok message.

(** What [np.min_scalar_type] and [np.can_cast] are given: an array or a
    Python number, and a dtype or a class. *)
Inductive array_like : Type :=
| Arr (a : ndarray)
| Num (n : scalar).

Inductive dtype_like : Type :=
| Dtype (d : dtype)
| Class (c : msg_class).

Definition np_min_scalar_type (a : array_like) : dtype :=
  match a with
  | Arr a => min_scalar_type a
  | Num n => min_scalar_type_of_scalar n
  end.

Definition np_can_cast (from_ : dtype) (to : dtype_like) : bool :=
  match to with
  | Dtype d => can_cast from_ d
  | Class _ => can_cast from_ object_
  end.

Definition _assert_is_castable (array : array_like) (dtype : dtype_like) : result unit :=
  let min_dtype := np_min_scalar_type array in
  if negb (np_can_cast min_dtype dtype)
  then Err CastError
  else Ok tt.

Definition vector_to_numpy
    : msg -> bool -> result ndarray :=
  converts_to_numpy
    [Vector3; Vector3Stamped; Point; PointStamped; Point32]
    (fun (message : msg) (homogeneous : bool) =>
    message <- _unstamp message ;;
    mx <- getattr_float message "x" ;;
    my <- getattr_float message "y" ;;
    mz <- getattr_float message "z" ;;
    let data := [mx; my; mz] in
    let data := if homogeneous then data ++ [1%float] else data in
    let dtype := if isinstance message Point32 then float32 else float64 in
    let array := np_array data dtype in
    Ok array).

Definition numpy_to_vector
    : msg_class -> ndarray -> result msg :=
  converts_to_message
    [Vector3; Point; Point32]
    (fun (message_type : msg_class) (array : ndarray) =>
    if negb (existsb (shape_eqb (shape array)) [[3]; [4]])
    then Err ShapeError else
    let dtype := if is_ message_type Point32 then float32 else float64 in
    _assert_is_castable (Arr array) (Dtype dtype) ;;;
    n <- len array ;;
    bad <- (if n =? 4
            then (last <- item array 3 ;; Ok (negb (isclose last 1)))
            else Ok false) ;;
    if bad then Err InvalidHomogeneousComponentError else
    new_message message_type (map VFloat (slice_to array 3))).

Definition kinematics_to_numpy
    : msg -> bool -> result (ndarray * ndarray) :=
  converts_to_numpy
    [Accel; AccelStamped; Twist; TwistStamped; Wrench; WrenchStamped]
    (fun (message : msg) (homogeneous : bool) =>
    message <- _unstamp message ;;
    let is_wrench := isinstance message Wrench in
    linear_message <- getattr message (if is_wrench then "force" else "linear") ;;
    angular_message <- getattr message (if is_wrench then "torque" else "angular") ;;
    linear <- vector_to_numpy linear_message homogeneous ;;
    angular <- vector_to_numpy angular_message homogeneous ;;
    Ok (linear, angular)).

(** [numpy_to_vector(linear)] and [numpy_to_vector(angular)]: one
    argument each, for the parameters [message_type] and [array]. *)
Definition numpy_to_kinamatics
    : msg_class -> ndarray -> ndarray -> result msg :=
  converts_to_message
    [Accel; Twist; Wrench]
    (fun (message_type : msg_class) (linear angular : ndarray) =>
    let is_wrench := is_ message_type Wrench in
    let linear_key := if is_wrench then "force" else "linear" in
    let angular_key := if is_wrench then "torque" else "angular" in
    linear_value <- call2 "numpy_to_vector" "array" numpy_to_vector (Args1 linear) ;;
    angular_value <- call2 "numpy_to_vector" "array" numpy_to_vector (Args1 angular) ;;
    let kwargs := [(linear_key, VMsg linear_value); (angular_key, VMsg angular_value)] in
    new_message_kw message_type kwargs).

Definition kinematics_with_covariance_to_numpy
    : msg -> bool -> result (ndarray * ndarray * ndarray) :=
  converts_to_numpy
    [AccelWithCovariance; AccelWithCovarianceStamped;
     TwistWithCovariance; TwistWithCovarianceStamped]
    (fun (message : msg) (homogeneous : bool) =>
    message <- _unstamp message ;;
    let is_accel := isinstance message AccelWithCovariance in
    kinematics_message <- getattr message (if is_accel then "accel" else "twist") ;;
    la <- kinematics_to_numpy kinematics_message homogeneous ;;
    let '(linear, angular) := la in
    flat <- getattr_floats message "covariance" ;;
    covariance <- reshape (np_array flat float64) 6 6 ;;
    Ok (linear, angular, covariance)).

Definition numpy_to_covariance (array : ndarray) : result (list float) :=
  _assert_is_castable (Arr array) (Dtype float64) ;;;
  if negb (shape_eqb (shape array) [6; 6])
  then Err ShapeError else
  Ok (data (flatten array)).

Definition numpy_to_kinematics_with_covariance
    : msg_class -> ndarray -> ndarray -> ndarray -> result msg :=
  converts_to_message
    [AccelWithCovariance; TwistWithCovariance]
    (fun (message_type : msg_class) (linear angular covariance : ndarray) =>
    let is_accel := is_ message_type AccelWithCovariance in
    let kinematics_key := if is_accel then "accel" else "twist" in
    let kinematics_message_type := if is_accel then Accel else Twist in
    kinematics_message <-
      numpy_to_kinamatics kinematics_message_type linear angular ;;
    covariance_message <- numpy_to_covariance covariance ;;
    let kwargs := [(kinematics_key, VMsg kinematics_message);
                   ("covariance", VFloats covariance_message)] in
    new_message_kw message_type kwargs).

(** [np.array(rows)] on a list of lists of fields.  Given no dtype, the
    array takes that of the numbers it holds: the fields of a message
    are kept by their values, as the Python floats (or [float64]
    scalars) a message is built or deserialized with, and these make a
    [float64] array. *)
Definition np_array_2d (rows : list (list float)) : ndarray :=
  mk_ndarray float64 [length rows; length (hd [] rows)] (concat rows).

Definition inertia_to_numpy
    : msg -> bool -> result (float * ndarray * ndarray) :=
  converts_to_numpy
    [Inertia; InertiaStamped]
    (fun (message : msg) (homogeneous : bool) =>
    message <- _unstamp message ;;
    mass <- getattr_float message "m" ;;
    com_message <- getattr message "com" ;;
    mass_center <- vector_to_numpy com_message homogeneous ;;
    xx <- getattr_float message "ixx" ;;
    xy <- getattr_float message "ixy" ;;
    xz <- getattr_float message "ixz" ;;
    yy <- getattr_float message "iyy" ;;
    yz <- getattr_float message "iyz" ;;
    zz <- getattr_float message "izz" ;;
    let inertia_tensor := np_array_2d [
      [xx; xy; xz];
      [xy; yy; yz];
      [xz; yz; zz]
    ] in
    Ok (mass, mass_center, inertia_tensor)).

Definition numpy_to_inertia
    : msg_class -> scalar -> ndarray -> ndarray -> result msg :=
  converts_to_message
    [Inertia]
    (fun (message_type : msg_class) (mass : scalar) (mass_center inertia_tensor : ndarray) =>
    _assert_is_castable (Num mass) (Dtype float64) ;;;
    _assert_is_castable (Arr inertia_tensor) (Dtype float64) ;;;
    mass_center_message <- numpy_to_vector Vector3 mass_center ;;
    if negb (shape_eqb (shape inertia_tensor) [3; 3])
    then Err ShapeError else
    t00 <- item2 inertia_tensor 0 0 ;;
    t01 <- item2 inertia_tensor 0 1 ;;
    t02 <- item2 inertia_tensor 0 2 ;;
    t11 <- item2 inertia_tensor 1 1 ;;
    t21 <- item2 inertia_tensor 2 1 ;;
    t22 <- item2 inertia_tensor 2 2 ;;
    new_message_kw message_type [
      ("m", VFloat (py_float mass));
      ("com", VMsg mass_center_message);
      ("ixx", VFloat t00);
      ("ixy", VFloat t01);
      ("ixz", VFloat t02);
      ("iyy", VFloat t11);
      ("iyz", VFloat t21);
      ("izz", VFloat t22)
    ]).

Definition polygon_to_numpy
    : msg -> bool -> result ndarray :=
  converts_to_numpy
    [Polygon; PolygonStamped]
    (fun (message : msg) (homogeneous : bool) =>
    message <- _unstamp message ;;
    ps <- getattr_list message "points" ;;
    rows <- mapM (fun p => vector_to_numpy p homogeneous) ps ;;
    let points := np_stack rows float32 in
    Ok (transpose points)).

(** [len(points)] is read only once [points.ndim] is 2. *)
Definition numpy_to_polygon
    : msg_class -> ndarray -> result msg :=
  converts_to_message
    [Polygon]
    (fun (message_type : msg_class) (points : ndarray) =>
    _assert_is_castable (Arr points) (Dtype float32) ;;;
    if negb (ndim points =? 2) || negb (existsb (Nat.eqb (hd 0 (shape points))) [3; 4])
    then Err ShapeError else
    columns <- hsplit points (nth 1 (shape points) 0) ;;
    points_msg <- mapM (fun point => numpy_to_vector Point32 (squeeze point)) columns ;;
    new_message message_type [VMsgs points_msg]).

Definition quaternion_to_numpy
    : msg -> result quaternion :=
  converts_to_numpy
    [Quaternion; QuaternionStamped]
    (fun (message : msg) =>
    message <- _unstamp message ;;
    mx <- getattr_float message "x" ;;
    my <- getattr_float message "y" ;;
    mz <- getattr_float message "z" ;;
    mw <- getattr_float message "w" ;;
    Ok (np_quaternion mx my mz mw)).

Definition numpy_to_quaternion
    : msg_class -> numpy_obj -> result msg :=
  converts_to_message
    [Quaternion]
    (fun (message_type : msg_class) (numpy_obj : numpy_obj) =>
    match numpy_obj with
    | Quat q => new_message message_type (map VFloat (data (as_float_array q)))
    | Array a =>
        _assert_is_castable (Arr a) (Dtype float64) ;;;
        if negb (shape_eqb (shape a) [4])
        then Err ShapeError else
        new_message message_type (map VFloat (data a))
    end).

(** *** Poses and transforms *)

(** More of NumPy: [np.eye], slices of a 2-D array, assignment to a
    slice, [==] on arrays of one shape, and the truth value of an array. *)
Definition tabulate2 (r c : nat) (f : nat -> nat -> float) : list float :=
  flat_map (fun i => map (f i) (seq 0 c)) (seq 0 r).

Definition at2 (a : ndarray) (i j : nat) : float :=
  nth (i * nth 1 (shape a) 0 + j) (data a) 0%float.

Definition eye (n : nat) (dt : dtype) : ndarray :=
  mk_ndarray dt [n; n] (tabulate2 n n (fun i j => if i =? j then 1%float else 0%float)).

(** [a[i, :]]. *)
Definition row (a : ndarray) (i : nat) : result ndarray :=
  match shape a with
  | [r; c] =>
      if i <? r
      then Ok (mk_ndarray (dtype_of a) [c] (map (at2 a i) (seq 0 c)))
      else Err IndexError
  | _ => Err IndexError
  end.

(** [a[:k, :l]]. *)
Definition block (a : ndarray) (k l : nat) : result ndarray :=
  match shape a with
  | [r; c] =>
      Ok (mk_ndarray (dtype_of a) [Nat.min k r; Nat.min l c]
            (tabulate2 (Nat.min k r) (Nat.min l c) (at2 a)))
  | _ => Err IndexError
  end.

(** [a[:, j] = v] for a 1-D [v] with one element per row. *)
Definition set_column (a : ndarray) (j : nat) (v : ndarray) : result ndarray :=
  match shape a with
  | [r; c] =>
      if negb (j <? c) then Err IndexError
      else if negb (shape_eqb (shape v) [r]) then Err (ValueError CannotBroadcast)
      else Ok (mk_ndarray (dtype_of a) [r; c]
                 (tabulate2 r c (fun i k =>
                    if k =? j then cast (dtype_of a) (nth i (data v) 0%float)
                    else at2 a i k)))
  | _ => Err IndexError
  end.

(** [a[:k, :l] = b] for a [(k, l)] array [b]. *)
Definition set_block (a : ndarray) (k l : nat) (b : ndarray) : result ndarray :=
  match shape a with
  | [r; c] =>
      if negb (shape_eqb (shape b) [Nat.min k r; Nat.min l c])
      then Err (ValueError CannotBroadcast)
      else Ok (mk_ndarray (dtype_of a) [r; c]
                 (tabulate2 r c (fun i j =>
                    if (i <? k) && (j <? l) then cast (dtype_of a) (at2 b i j)
                    else at2 a i j)))
  | _ => Err IndexError
  end.

Record bool_array : Type := mk_bool_array {
  bshape : list nat;
  bdata : list bool
}.

Fixpoint map2 {A B C : Type} (f : A -> B -> C) (l : list A) (l' : list B) : list C :=
  match l, l' with
  | a :: t, b :: t' => f a b :: map2 f t t'
  | _, _ => []
  end.

(** [a == b], element by element. *)
Definition np_equal (a b : ndarray) : result bool_array :=
  if shape_eqb (shape a) (shape b)
  then Ok (mk_bool_array (shape a) (map2 PrimFloat.eqb (data a) (data b)))
  else Err (ValueError CannotBroadcast).

(** [bool(a)], which [not a] and [if a] ask for: an array of one element
    has the truth value of the element, and NumPy refuses to give one to
    an array of several.  (An empty array was [False] in older versions
    and is refused by newer ones.) *)
Definition truth_value (a : bool_array) : result bool :=
  match size_of_shape (bshape a), bdata a with
  | 1, [b] => Ok b
  | _, _ => Err (ValueError AmbiguousTruthValue)
  end.

Inductive frame_value : Type :=
| Homogeneous (as_matrix : ndarray)
| PositionRotation (position : ndarray) (rotation : quaternion).

Section Frames.

(** The two conversions of numpy-quaternion between a quaternion and a
    3x3 rotation matrix are taken as they are. *)
Variable as_rotation_matrix : quaternion -> result ndarray.
Variable from_rotation_matrix : ndarray -> result quaternion.

Definition frame_to_numpy
    : msg -> bool -> result frame_value :=
  converts_to_numpy
    [Pose; PoseStamped; Transform; TransformStamped]
    (fun (message : msg) (homogeneous : bool) =>
    message <- _unstamp message ;;
    let is_pose := isinstance message Pose in
    position_message <-
      getattr message (if is_pose then "position" else "translation") ;;
    rotation_message <-
      getattr message (if is_pose then "orientation" else "rotation") ;;
    position <- vector_to_numpy position_message homogeneous ;;
    rotation <- quaternion_to_numpy rotation_message ;;
    if homogeneous then
      let as_matrix := eye 4 float64 in
      as_matrix <- set_column as_matrix 3 position ;;
      rotation_matrix <- as_rotation_matrix rotation ;;
      as_matrix <- set_block as_matrix 3 3 rotation_matrix ;;
      Ok (Homogeneous as_matrix)
    else Ok (PositionRotation position rotation)).

(** The matrix form: [_assert_is_castable(matrix, Pose)] is given the
    class Pose where the other encoders give a dtype; [not] is applied
    to the array that [==] returns; [position] is row 3 of the matrix.
    A quaternion given as the one argument has the shape [()]. *)
Definition numpy_to_frame
    : msg_class -> (list numpy_obj) -> result msg :=
  converts_to_message
    [Pose; PoseStamped; Transform; TransformStamped]
    (fun (message_type : msg_class) (args : list numpy_obj) =>
    let is_pose := is_ message_type Pose in
    let position_key := if is_pose then "position" else "translation" in
    let rotation_key := if is_pose then "orientation" else "rotation" in
    pr <- match args with
          | [Quat _] => Err ShapeError
          | [Array matrix] =>
              _assert_is_castable (Arr matrix) (Class Pose) ;;;
              if negb (shape_eqb (shape matrix) [4; 4])
              then Err ShapeError else
              bottom <- row matrix 3 ;;
              is_bottom <- np_equal bottom (np_array [0; 0; 0; 1]%float float64) ;;
              homogeneous <- truth_value is_bottom ;;
              if negb homogeneous then Err InvalidTransformError else
              position <- row matrix 3 ;;
              upper_left <- block matrix 3 3 ;;
              rotation <- from_rotation_matrix upper_left ;;
              Ok (Array position, Quat rotation)
          | [position; rotation] => Ok (position, rotation)
          | _ => Err ArityError
          end ;;
    let '(position, rotation) := pr in
    position_value <-
      call2 "numpy_to_vector" "array" numpy_to_vector (Args1 position) ;;
    rotation_value <-
      call2 "numpy_to_quaternion" "numpy_obj" numpy_to_quaternion (Args1 rotation) ;;
    let kwargs := [(position_key, VMsg position_value);
                   (rotation_key, VMsg rotation_value)] in
    new_message_kw message_type kwargs).

End Frames.

(** * The vocabulary of the properties

    What the statements below are written with: the payload of a stamped
    message, the arrays and messages the codecs are expected to return,
    and two sentences of the specification that do not hold as worded. *)

(** The payload of a message of a stamped class, read off the message. *)
Definition stamped_payload (message : msg) : option msg :=
  match message with
  | Msg_AccelStamped _ accel => Some (Msg_Accel accel)
  | Msg_AccelWithCovarianceStamped _ accel => Some (Msg_AccelWithCovariance accel)
  | Msg_InertiaStamped _ inertia => Some (Msg_Inertia inertia)
  | Msg_PointStamped _ point => Some (Msg_Point point)
  | Msg_PolygonStamped _ polygon => Some (Msg_Polygon polygon)
  | Msg_PoseStamped _ pose => Some (Msg_Pose pose)
  | Msg_QuaternionStamped _ quaternion => Some (Msg_Quaternion quaternion)
  | Msg_TransformStamped _ _ transform => Some (Msg_Transform transform)
  | Msg_TwistStamped _ twist => Some (Msg_Twist twist)
  | Msg_TwistWithCovarianceStamped _ twist => Some (Msg_TwistWithCovariance twist)
  | Msg_Vector3Stamped _ vector => Some (Msg_Vector3 vector)
  | Msg_WrenchStamped _ wrench => Some (Msg_Wrench wrench)
  | _ => None
  end.

(** The message [_unstamp] is expected to return. *)
Definition unwrapped (message : msg) : msg :=
  match stamped_payload message with
  | Some payload => payload
  | None => message
  end.

Definition is_some {A : Type} (o : option A) : bool :=
  match o with Some _ => true | None => false end.

(** The array of a vector or point whose fields are [float64]. *)
Definition xyz_array (v : xyz) (homogeneous : bool) : ndarray :=
  np_array (if homogeneous then [x v; y v; z v; 1%float] else [x v; y v; z v])
    float64.

(** The 4x4 identity matrix, as an array of Python objects. *)
Definition object_identity : ndarray :=
  mk_ndarray object_ [4; 4] (data (eye 4 float64)).

(** The classes [numpy_to_vector] is registered for, the dtype it checks
    the array against, and the message it builds from three numbers. *)
Definition vector_classes : list msg_class := [Vector3; Point; Point32].

Definition target_dtype (message_type : msg_class) : dtype :=
  if is_ message_type Point32 then float32 else float64.

Definition vector_message (message_type : msg_class) (v : xyz) : msg :=
  match message_type with
  | Point => Msg_Point v
  | Point32 => Msg_Point32 v
  | _ => Msg_Vector3 v
  end.

(** The homogeneous rule as the specification words it: on every array
    of length four, a last component close to 1 makes the encoder
    succeed and any other makes it raise the error of the component. *)
Definition homogeneous_rule_as_claimed : Prop :=
  forall (message_type : msg_class) (array : ndarray) (last : float),
    In message_type vector_classes ->
    shape array = [4] ->
    item array 3 = Ok last ->
    if isclose last 1
    then is_ok (numpy_to_vector message_type array) = true
    else numpy_to_vector message_type array = Err InvalidHomogeneousComponentError.

(** A message whose covariance field holds 0, 1, ..., 35. *)
Definition counting_covariance : with_covariance :=
  mk_with_covariance zero_linear_angular
    (map (fun k => float_of_Z (Z.of_nat k)) (seq 0 36)).

(** The array of a Point32. *)
Definition xyz_array32 (v : xyz) (homogeneous : bool) : ndarray :=
  np_array (if homogeneous then [x v; y v; z v; 1%float] else [x v; y v; z v])
    float32.

(** A 3x3 array that equals its transpose. *)
Definition symmetric3 (t : ndarray) : Prop :=
  shape t = [3; 3]
  /\ forall i j, i < 3 -> j < 3 -> item2 t i j = item2 t j i.

(** The tensor the decoder builds from the six moments. *)
Definition tensor_of (i : inertia) : ndarray :=
  mk_ndarray float64 [3; 3]
    [ixx i; ixy i; ixz i;
     ixy i; iyy i; iyz i;
     ixz i; iyz i; izz i].

(** The message the encoder builds from a mass, a centre and a tensor. *)
Definition inertia_of (mass : float) (centre : xyz) (t : list float) : inertia :=
  mk_inertia mass centre
    (nth 0 t 0%float) (nth 1 t 0%float) (nth 2 t 0%float)
    (nth 4 t 0%float) (nth 7 t 0%float) (nth 8 t 0%float).

(** A number that a [float32] holds. *)
Definition is_float32 (v : float) : Prop := round32 v = v.

(** The point the encoder builds from a column. *)
Definition point_of_column (col : list float) : xyz :=
  mk_xyz (nth 0 col 0%float) (nth 1 col 0%float) (nth 2 col 0%float).

(** The points of a matrix of [r] rows and [n] columns, given by its
    elements [d]. *)
Definition points_of (d : list float) (r n : nat) : list xyz :=
  map (fun j => point_of_column (column d r n j)) (seq 0 n).

(** The polygon codec as the specification words it: every well-formed
    array of [float32] numbers with 3 or 4 rows and [n] columns is
    encoded to [n] points, and decoding gives an array of its shape. *)
Definition polygon_roundtrip_as_claimed : Prop :=
  forall (points : ndarray) (r n : nat),
    shape points = [r; n] ->
    r = 3 \/ r = 4 ->
    well_formed points ->
    can_cast (dtype_of points) float32 = true ->
    Forall is_float32 (data points) ->
    exists (ps : list xyz) (homogeneous : bool) (decoded : ndarray),
      numpy_to_polygon Polygon points = Ok (Msg_Polygon ps)
      /\ length ps = n
      /\ polygon_to_numpy (Msg_Polygon ps) homogeneous = Ok decoded
      /\ shape decoded = shape points.

(** The (3,4) array of the numbers 1 to 12: four points, one per column. *)
Definition four_points : ndarray :=
  mk_ndarray float32 [3; 4] [1; 2; 3; 4; 5; 6; 7; 8; 9; 10; 11; 12]%float.

(** ** For the further properties *)

(** The classes on which each decoder finds the attributes it reads. *)
Definition vector_like_classes : list msg_class :=
  [Vector3; Vector3Stamped; Point; PointStamped; Point32;
   Quaternion; QuaternionStamped].

Definition kinematics_classes : list msg_class :=
  [Accel; AccelStamped; Twist; TwistStamped; Wrench; WrenchStamped].

Definition covariance_classes : list msg_class :=
  [AccelWithCovariance; AccelWithCovarianceStamped;
   TwistWithCovariance; TwistWithCovarianceStamped].

Definition frame_classes : list msg_class :=
  [Pose; PoseStamped; Transform; TransformStamped].

Definition has_class (classes : list msg_class) (message : msg) : bool :=
  existsb (is_ (class_of message)) classes.

(** The covariance field of a message that has one. *)
Definition covariance_of (message : msg) : list float :=
  match unwrapped message with
  | Msg_AccelWithCovariance c | Msg_TwistWithCovariance c => covariance c
  | _ => []
  end.

(** The dtypes every element of which is a binary64 number, so that an
    array of such a dtype is given by the values of its elements: the
    floating-point dtypes and the integer dtypes of up to 32 bits.  (An
    element of a 64-bit integer dtype is one only below 2^53 in
    magnitude.) *)
Definition held_by_value (dt : dtype) : bool :=
  match dt with
  | int64 | uint64 | object_ => false
  | _ => true
  end.

(** The tensor with the six entries the inertia encoder reads, mirrored
    across the diagonal. *)
Definition mirrored (t : list float) : list float :=
  [nth 0 t 0%float; nth 1 t 0%float; nth 2 t 0%float;
   nth 1 t 0%float; nth 4 t 0%float; nth 7 t 0%float;
   nth 2 t 0%float; nth 7 t 0%float; nth 8 t 0%float].

(** A point whose three fields are [float32] numbers, as the fields of a
    Point32 are once the message went over the wire. *)
Definition float32_point (p : xyz) : Prop :=
  is_float32 (x p) /\ is_float32 (y p) /\ is_float32 (z p).

(** The numbers the polygon decoder lists for one point. *)
Definition components (homogeneous : bool) (p : xyz) : list float :=
  if homogeneous then [x p; y p; z p; 1%float] else [x p; y p; z p].

(** The matrix of a polygon: a row of x, a row of y, a row of z and, in
    homogeneous mode, a row of ones. *)
Definition polygon_matrix (ps : list xyz) (homogeneous : bool) : ndarray :=
  mk_ndarray float32 [(if homogeneous then 4 else 3); length ps]
    (map x ps ++ map y ps ++ map z ps
     ++ (if homogeneous then map (fun _ => 1%float) ps else [])).

(** The position and the rotation of a pose or of a transform, stamped
    or not. *)
Definition frame_parts (message : msg) : option (xyz * xyzw) :=
  match unwrapped message with
  | Msg_Pose p => Some (position p, orientation p)
  | Msg_Transform t => Some (translation t, rotation t)
  | _ => None
  end.

(** The quaternion the frame decoder builds from the rotation field. *)
Definition decoded_rotation (o : xyzw) : quaternion :=
  np_quaternion (qx o) (qy o) (qz o) (qw o).

(** The 4x4 matrix with the 3x3 matrix of elements [R] in its upper left
    corner, a position in its last column and (0, 0, 0, 1) below. *)
Definition homogeneous_matrix (R : list float) (p : xyz) : ndarray :=
  mk_ndarray float64 [4; 4]
    [nth 0 R 0%float; nth 1 R 0%float; nth 2 R 0%float; x p;
     nth 3 R 0%float; nth 4 R 0%float; nth 5 R 0%float; y p;
     nth 6 R 0%float; nth 7 R 0%float; nth 8 R 0%float; z p;
     0%float; 0%float; 0%float; 1%float].

(** * Properties *)

(** ** The error monad and the NumPy model *)

Lemma mapM_map {A B C : Type} (f : B -> result C) (g : A -> B) (l : list A) :
  mapM f (map g l) = mapM (fun a => f (g a)) l.
Proof.
  induction l as [| a l IH]; simpl; [reflexivity |].
  rewrite IH. reflexivity.
Qed.

Lemma mapM_ok_in {A B : Type} (f : A -> result B) (g : A -> B) (l : list A) :
  (forall a, In a l -> f a = Ok (g a)) -> mapM f l = Ok (map g l).
Proof.
  induction l as [| a l IH]; simpl; intro H; [reflexivity |].
  rewrite (H a (or_introl eq_refl)). simpl.
  rewrite IH by (intros b Hb; apply H; right; exact Hb).
  reflexivity.
Qed.

Lemma can_cast_object (d : dtype) : can_cast d object_ = true.
Proof. destruct d; reflexivity. Qed.

Lemma map_cast_float64 (l : list float) : map (cast float64) l = l.
Proof.
  induction l as [| v l IH]; simpl; [reflexivity |].
  rewrite IH. reflexivity.
Qed.

Lemma shape_eqb_eq (s t : list nat) : shape_eqb s t = true <-> s = t.
Proof.
  unfold shape_eqb. destruct (list_eq_dec Nat.eq_dec s t) as [E | N].
  - split; [intros _; exact E | reflexivity].
  - split; [discriminate | intro E; contradiction].
Qed.

Lemma shape_eqb_neq (s t : list nat) : shape_eqb s t = false <-> s <> t.
Proof.
  unfold shape_eqb. destruct (list_eq_dec Nat.eq_dec s t) as [E | N].
  - split; [discriminate | intro H; contradiction].
  - split; [intros _; exact N | reflexivity].
Qed.

Lemma reshape_np_array_float64 (l : list float) (r c : nat) :
  length l = r * c ->
  reshape (np_array l float64) r c = Ok (mk_ndarray float64 [r; c] l).
Proof.
  intro H. unfold reshape, np_array. simpl.
  rewrite map_cast_float64, H, Nat.eqb_refl. reflexivity.
Qed.

(** An array of one dimension or more is judged by its dtype. *)
Lemma min_scalar_type_non_scalar (a : ndarray) :
  shape a <> [] -> min_scalar_type a = dtype_of a.
Proof.
  unfold min_scalar_type. destruct (shape a) as [| n s]; [congruence |].
  reflexivity.
Qed.

(** An array of objects does not pass the cast check against [float64]. *)
Lemma object_not_castable_float64 (a : ndarray) :
  dtype_of a = object_ -> can_cast (min_scalar_type a) float64 = false.
Proof.
  intro H. unfold min_scalar_type. rewrite H.
  destruct (shape a) as [| n s]; destruct (data a) as [| v l]; reflexivity.
Qed.

(** The cast check on an array of one dimension or more, given by [H]
    how the dtype of the array casts to the one asked for. *)
Ltac cast_check H :=
  unfold _assert_is_castable; cbn [np_min_scalar_type np_can_cast];
  rewrite min_scalar_type_non_scalar by (simpl; discriminate);
  cbn [dtype_of]; rewrite H; cbn [negb bind].

Lemma item2_nth (dt : dtype) (r c : nat) (l : list float) (i j : nat) :
  i < r -> j < c -> i * c + j < length l ->
  item2 (mk_ndarray dt [r; c] l) i j = Ok (nth (i * c + j) l 0%float).
Proof.
  intros Hi Hj Hl. unfold item2. cbn [shape data].
  apply Nat.ltb_lt in Hi, Hj. rewrite Hi, Hj. cbn [andb].
  destruct (nth_error l (i * c + j)) as [v |] eqn:E.
  - rewrite (nth_error_nth _ _ 0%float E). reflexivity.
  - apply nth_error_None in E. lia.
Qed.

(** ** Unwrapping stamped messages *)

Lemma _unstamp_unwrapped (message : msg) : _unstamp message = Ok (unwrapped message).
Proof. destruct message; reflexivity. Qed.

Lemma unwrapped_idempotent (message : msg) :
  unwrapped (unwrapped message) = unwrapped message.
Proof. destruct message; reflexivity. Qed.

(** C6.  [_unstamp] never raises: on a message of a class of
    [_stamped_type_to_attr] it returns the payload, on any other message
    the message itself; the classes of the table are the stamped ones.
    Every decoder therefore returns on a message what it returns on the
    unwrapped message, the stamped messages among them. *)
Theorem unstamp_total_and_decoders_agree :
  forall (as_rotation_matrix : quaternion -> result ndarray)
         (message : msg) (homogeneous : bool),
    _unstamp message = Ok (unwrapped message)
    /\ is_some (dict_get _stamped_type_to_attr (class_of message))
       = is_some (stamped_payload message)
    /\ vector_to_numpy message homogeneous
       = vector_to_numpy (unwrapped message) homogeneous
    /\ kinematics_to_numpy message homogeneous
       = kinematics_to_numpy (unwrapped message) homogeneous
    /\ kinematics_with_covariance_to_numpy message homogeneous
       = kinematics_with_covariance_to_numpy (unwrapped message) homogeneous
    /\ inertia_to_numpy message homogeneous
       = inertia_to_numpy (unwrapped message) homogeneous
    /\ polygon_to_numpy message homogeneous
       = polygon_to_numpy (unwrapped message) homogeneous
    /\ quaternion_to_numpy message = quaternion_to_numpy (unwrapped message)
    /\ frame_to_numpy as_rotation_matrix message homogeneous
       = frame_to_numpy as_rotation_matrix (unwrapped message) homogeneous.
Proof.
  intros rot message homogeneous.
  split; [apply _unstamp_unwrapped |].
  split; [destruct message; reflexivity |].
  unfold vector_to_numpy, kinematics_to_numpy, kinematics_with_covariance_to_numpy,
    inertia_to_numpy, polygon_to_numpy, quaternion_to_numpy, frame_to_numpy, converts_to_numpy.
  rewrite !_unstamp_unwrapped, unwrapped_idempotent.
  repeat split; reflexivity.
Qed.

(** ** Decoding vectors *)

Lemma vector_decoded (v : xyz) (header : Header) (homogeneous : bool) :
  vector_to_numpy (Msg_Vector3 v) homogeneous = Ok (xyz_array v homogeneous)
  /\ vector_to_numpy (Msg_Point v) homogeneous = Ok (xyz_array v homogeneous)
  /\ vector_to_numpy (Msg_Vector3Stamped header v) homogeneous
     = Ok (xyz_array v homogeneous)
  /\ vector_to_numpy (Msg_PointStamped header v) homogeneous
     = Ok (xyz_array v homogeneous).
Proof. destruct homogeneous; repeat split; reflexivity. Qed.

(** The decoders return a value on the stamped messages they are
    registered for (the covariance being the 36 numbers of its field). *)
Lemma stamped_messages_decoded (header : Header) (homogeneous : bool) :
  (forall v, is_ok (vector_to_numpy (Msg_Vector3Stamped header v) homogeneous) = true)
  /\ (forall v, is_ok (vector_to_numpy (Msg_PointStamped header v) homogeneous) = true)
  /\ (forall k, is_ok (kinematics_to_numpy (Msg_AccelStamped header k) homogeneous) = true)
  /\ (forall k, is_ok (kinematics_to_numpy (Msg_TwistStamped header k) homogeneous) = true)
  /\ (forall w, is_ok (kinematics_to_numpy (Msg_WrenchStamped header w) homogeneous) = true)
  /\ (forall c, length (covariance c) = 36 ->
         is_ok (kinematics_with_covariance_to_numpy
                  (Msg_AccelWithCovarianceStamped header c) homogeneous) = true
         /\ is_ok (kinematics_with_covariance_to_numpy
                     (Msg_TwistWithCovarianceStamped header c) homogeneous) = true)
  /\ (forall i, is_ok (inertia_to_numpy (Msg_InertiaStamped header i) homogeneous) = true)
  /\ (forall ps, is_ok (polygon_to_numpy (Msg_PolygonStamped header ps) homogeneous) = true)
  /\ (forall q, is_ok (quaternion_to_numpy (Msg_QuaternionStamped header q)) = true)
  /\ (forall rot p, is_ok (frame_to_numpy rot (Msg_PoseStamped header p) false) = true)
  /\ (forall rot child t,
        is_ok (frame_to_numpy rot (Msg_TransformStamped header child t) false) = true).
Proof.
  repeat split; intros; try (destruct homogeneous; reflexivity); try reflexivity.
  - unfold kinematics_with_covariance_to_numpy, converts_to_numpy. simpl.
    rewrite (reshape_np_array_float64 (covariance c) 6 6) by assumption.
    destruct homogeneous; reflexivity.
  - unfold kinematics_with_covariance_to_numpy, converts_to_numpy. simpl.
    rewrite (reshape_np_array_float64 (covariance c) 6 6) by assumption.
    destruct homogeneous; reflexivity.
  - unfold polygon_to_numpy, converts_to_numpy. rewrite _unstamp_unwrapped.
    cbn [unwrapped stamped_payload bind getattr_list].
    rewrite mapM_map.
    rewrite (mapM_ok_in _ (fun p => xyz_array32 p homogeneous));
      [reflexivity | intros p _; destruct homogeneous; reflexivity].
Qed.

(** ** Quaternions *)

(** C10.  Encoding the quaternion decoded from a Quaternion message gives
    the message back, field for field: [np.quaternion] takes the four
    fields in the order x, y, z, w and [as_float_array] returns them in
    that order. *)
Theorem quaternion_roundtrip_exact :
  forall (q : xyzw),
    quaternion_to_numpy (Msg_Quaternion q)
      = Ok (np_quaternion (qx q) (qy q) (qz q) (qw q))
    /\ (numpy_value <- quaternion_to_numpy (Msg_Quaternion q) ;;
        numpy_to_quaternion Quaternion (Quat numpy_value))
       = Ok (Msg_Quaternion q).
Proof.
  intros [a b c d]. split; reflexivity.
Qed.

(** ** Kinematics *)

(** The decoder returns the two vectors of an Accel, Twist or Wrench. *)
Lemma kinematics_decoded (k : linear_angular) (w : force_torque) (homogeneous : bool) :
  kinematics_to_numpy (Msg_Accel k) homogeneous
    = Ok (xyz_array (linear k) homogeneous, xyz_array (angular k) homogeneous)
  /\ kinematics_to_numpy (Msg_Twist k) homogeneous
    = Ok (xyz_array (linear k) homogeneous, xyz_array (angular k) homogeneous)
  /\ kinematics_to_numpy (Msg_Wrench w) homogeneous
    = Ok (xyz_array (force w) homogeneous, xyz_array (torque w) homogeneous).
Proof. destruct homogeneous; repeat split; reflexivity. Qed.

(** C2.  [numpy_to_kinamatics] raises for every target class and every
    pair of arrays: it calls [numpy_to_vector] with the array alone. *)
Theorem numpy_to_kinamatics_always_raises :
  forall (message_type : msg_class) (linear angular : ndarray),
    numpy_to_kinamatics message_type linear angular
      = Err (TypeError (MissingArgument "numpy_to_vector" "array")).
Proof. intros message_type linear angular. reflexivity. Qed.

(** The encoder with covariance calls it first, and raises with it. *)
Lemma numpy_to_kinematics_with_covariance_always_raises :
  forall (message_type : msg_class) (linear angular covariance : ndarray),
    numpy_to_kinematics_with_covariance message_type linear angular covariance
      = Err (TypeError (MissingArgument "numpy_to_vector" "array")).
Proof. intros message_type linear angular covariance. reflexivity. Qed.

(** ** Poses and transforms: the matrix form of the encoder *)

Lemma _assert_is_castable_class (array : array_like) (c : msg_class) :
  _assert_is_castable array (Class c) = Ok tt.
Proof.
  unfold _assert_is_castable, np_can_cast.
  rewrite can_cast_object. reflexivity.
Qed.

(** C1.  Given one 4x4 matrix, whatever its elements, the encoder raises
    the [ValueError] of NumPy for the truth value of the four-element
    array [matrix[3, :] == ...]: it builds no message, and the error of
    a matrix that is not homogeneous is never reached. *)
Theorem numpy_to_frame_matrix_always_raises :
  forall (from_rotation_matrix : ndarray -> result quaternion)
         (message_type : msg_class) (dt : dtype) (elements : list float),
    numpy_to_frame from_rotation_matrix message_type
      [Array (mk_ndarray dt [4; 4] elements)]
    = Err (ValueError AmbiguousTruthValue).
Proof.
  intros from_rotation_matrix message_type dt elements.
  unfold numpy_to_frame, converts_to_message.
  rewrite _assert_is_castable_class. reflexivity.
Qed.

(** What the encoder does reach: the shape error. *)
Lemma numpy_to_frame_shape_error :
  forall (from_rotation_matrix : ndarray -> result quaternion)
         (message_type : msg_class) (matrix : ndarray),
    shape matrix <> [4; 4] ->
    numpy_to_frame from_rotation_matrix message_type [Array matrix]
    = Err ShapeError.
Proof.
  intros from_rotation_matrix message_type matrix H.
  unfold numpy_to_frame, converts_to_message.
  rewrite _assert_is_castable_class.
  apply shape_eqb_neq in H. simpl. rewrite H. reflexivity.
Qed.

(** The encoder returns no message, whatever it is given. *)
Lemma numpy_to_frame_never_returns :
  forall (from_rotation_matrix : ndarray -> result quaternion)
         (message_type : msg_class) (args : list numpy_obj),
    is_ok (numpy_to_frame from_rotation_matrix message_type args) = false.
Proof.
  intros f message_type args. unfold numpy_to_frame, converts_to_message.
  destruct args as [| a [| b [| c rest]]]; try reflexivity;
    destruct a as [matrix | q]; try reflexivity.
  rewrite _assert_is_castable_class. simpl.
  destruct (shape_eqb (shape matrix) [4; 4]) eqn:E; [| reflexivity].
  apply shape_eqb_eq in E. unfold row. rewrite E. reflexivity.
Qed.

(** The decoder, for its part, writes the translation into the last
    column of the matrix and leaves the bottom row (0, 0, 0, 1). *)
Lemma frame_to_numpy_translation_column :
  forall (as_rotation_matrix : quaternion -> result ndarray)
         (p : pose) (rotation_matrix : list float),
    as_rotation_matrix
      (np_quaternion (qx (orientation p)) (qy (orientation p))
                     (qz (orientation p)) (qw (orientation p)))
      = Ok (mk_ndarray float64 [3; 3] rotation_matrix) ->
    exists as_matrix,
      frame_to_numpy as_rotation_matrix (Msg_Pose p) true = Ok (Homogeneous as_matrix)
      /\ shape as_matrix = [4; 4]
      /\ item2 as_matrix 0 3 = Ok (x (position p))
      /\ item2 as_matrix 1 3 = Ok (y (position p))
      /\ item2 as_matrix 2 3 = Ok (z (position p))
      /\ row as_matrix 3 = Ok (np_array [0; 0; 0; 1]%float float64).
Proof.
  intros rot p rotation_matrix Hrot.
  unfold frame_to_numpy, converts_to_numpy. cbn. rewrite Hrot. cbn.
  eexists. split; [reflexivity |]. repeat split.
Qed.

(** C9.  The check of the matrix form is made against the class Pose,
    which NumPy reads as the dtype [object]: it passes for every input.
    The identity matrix held as an array of objects fails the check
    against [float64], and the encoder goes past its own check to the
    row comparison. *)
Theorem frame_cast_check_is_vacuous :
  forall (from_rotation_matrix : ndarray -> result quaternion),
    (forall array : array_like, _assert_is_castable array (Class Pose) = Ok tt)
    /\ _assert_is_castable (Arr object_identity) (Dtype float64) = Err CastError
    /\ numpy_to_frame from_rotation_matrix Pose [Array object_identity]
       = Err (ValueError AmbiguousTruthValue).
Proof.
  intro f. split; [| split].
  - intro array. apply _assert_is_castable_class.
  - reflexivity.
  - unfold numpy_to_frame, converts_to_message.
    rewrite _assert_is_castable_class. reflexivity.
Qed.

(** ** Vectors and points *)

Lemma new_vector_message (message_type : msg_class) (a b c : float) :
  In message_type vector_classes ->
  new_message message_type [VFloat a; VFloat b; VFloat c]
    = Ok (vector_message message_type (mk_xyz a b c)).
Proof.
  intros [<- | [<- | [<- | []]]]; reflexivity.
Qed.

Lemma numpy_to_vector_shape_error (message_type : msg_class) (array : ndarray) :
  shape array <> [3] -> shape array <> [4] ->
  numpy_to_vector message_type array = Err ShapeError.
Proof.
  intros H3 H4. unfold numpy_to_vector, converts_to_message. simpl.
  apply shape_eqb_neq in H3, H4. rewrite H3, H4. reflexivity.
Qed.

Lemma numpy_to_vector_cast_error (message_type : msg_class) (array : ndarray) :
  shape array = [3] \/ shape array = [4] ->
  can_cast (dtype_of array) (target_dtype message_type) = false ->
  numpy_to_vector message_type array = Err CastError.
Proof.
  intros Hs Hc. unfold numpy_to_vector, _assert_is_castable, converts_to_message. simpl.
  rewrite min_scalar_type_non_scalar by (destruct Hs as [E | E]; rewrite E; discriminate).
  fold (target_dtype message_type). rewrite Hc.
  destruct Hs as [E | E]; rewrite E; reflexivity.
Qed.

Lemma numpy_to_vector_3 (message_type : msg_class) (dt : dtype) (a b c : float) :
  In message_type vector_classes ->
  can_cast dt (target_dtype message_type) = true ->
  numpy_to_vector message_type (mk_ndarray dt [3] [a; b; c])
    = Ok (vector_message message_type (mk_xyz a b c)).
Proof.
  intros Hin Hc. unfold numpy_to_vector, _assert_is_castable, converts_to_message. simpl.
  rewrite min_scalar_type_non_scalar by (simpl; discriminate). simpl.
  fold (target_dtype message_type). rewrite Hc. simpl.
  apply new_vector_message. exact Hin.
Qed.

Lemma numpy_to_vector_4 (message_type : msg_class) (dt : dtype) (a b c last : float) :
  In message_type vector_classes ->
  can_cast dt (target_dtype message_type) = true ->
  numpy_to_vector message_type (mk_ndarray dt [4] [a; b; c; last])
    = if isclose last 1
      then Ok (vector_message message_type (mk_xyz a b c))
      else Err InvalidHomogeneousComponentError.
Proof.
  intros Hin Hc. unfold numpy_to_vector, _assert_is_castable, converts_to_message. simpl.
  rewrite min_scalar_type_non_scalar by (simpl; discriminate). simpl.
  fold (target_dtype message_type). rewrite Hc. simpl.
  destruct (isclose last 1); simpl; [| reflexivity].
  apply new_vector_message. exact Hin.
Qed.

(** C3.  On an array of one dimension [np.min_scalar_type] returns the
    dtype of the array: the check against [float32] turns away every
    [float64] array, [1.0, 2.0, 3.0] as well as one that holds 1e300,
    although 1, 2 and 3 are [float32] numbers and 1e300 is not.  The same
    three numbers held in a [float32] array are encoded. *)
Theorem point32_cast_check_goes_by_dtype :
  (forall elements : list float,
     numpy_to_vector Point32 (mk_ndarray float64 [3] elements) = Err CastError)
  /\ numpy_to_vector Point32 (mk_ndarray float64 [3] [1; 2; 3]%float)
     = Err CastError
  /\ Forall (fun v => round32 v = v) [1; 2; 3]%float
  /\ numpy_to_vector Point32 (mk_ndarray float64 [3] [1e300; 2; 3]%float)
     = Err CastError
  /\ isfinite (round32 1e300) = false
  /\ numpy_to_vector Point32 (mk_ndarray float32 [3] [1; 2; 3]%float)
     = Ok (Msg_Point32 (mk_xyz 1 2 3)).
Proof.
  assert (H : forall elements : list float,
             numpy_to_vector Point32 (mk_ndarray float64 [3] elements)
             = Err CastError).
  { intro elements. apply numpy_to_vector_cast_error; [left |]; reflexivity. }
  split; [exact H |].
  split; [apply H |].
  split; [repeat constructor |].
  split; [apply H |].
  split; reflexivity.
Qed.

(** C4, as stated, fails: the cast check comes before the rule.  The
    array [1e300, 0, 0, 1] has the last component 1 and is turned away
    for Point32, and [1e300, 0, 0, 0.5] raises the cast error, not the
    error of the component. *)
Lemma homogeneous_rule_counterexample :
  numpy_to_vector Point32 (mk_ndarray float64 [4] [1e300; 0; 0; 1]%float)
    = Err CastError
  /\ numpy_to_vector Point32 (mk_ndarray float64 [4] [1e300; 0; 0; 0.5]%float)
    = Err CastError
  /\ ~ homogeneous_rule_as_claimed.
Proof.
  split; [reflexivity |]. split; [reflexivity |].
  intro H.
  specialize (H Point32 (mk_ndarray float64 [4] [1e300; 0; 0; 1]%float) 1%float).
  assert (Hin : In Point32 vector_classes) by (simpl; auto).
  specialize (H Hin eq_refl eq_refl).
  vm_compute in H. discriminate H.
Qed.

(** C4, amended.  An array whose shape is neither (3,) nor (4,) raises
    the shape error.  An array of length four that passes the cast check
    is encoded from its first three components when the last one is
    close to 1, and raises the error of the component otherwise.  An
    array of shape (3,) or (4,) that fails the cast check raises the
    cast error, whatever its last component. *)
Theorem numpy_to_vector_shape_and_homogeneous_rule :
  forall (message_type : msg_class),
    (forall array : ndarray,
       shape array <> [3] -> shape array <> [4] ->
       numpy_to_vector message_type array = Err ShapeError)
    /\ (forall (dt : dtype) (a b c last : float),
          In message_type vector_classes ->
          can_cast dt (target_dtype message_type) = true ->
          numpy_to_vector message_type (mk_ndarray dt [4] [a; b; c; last])
          = if isclose last 1
            then Ok (vector_message message_type (mk_xyz a b c))
            else Err InvalidHomogeneousComponentError)
    /\ (forall array : ndarray,
          shape array = [3] \/ shape array = [4] ->
          can_cast (dtype_of array) (target_dtype message_type) = false ->
          numpy_to_vector message_type array = Err CastError).
Proof.
  intro message_type. split; [| split].
  - intros array. apply numpy_to_vector_shape_error.
  - intros dt a b c last. apply numpy_to_vector_4.
  - intros array. apply numpy_to_vector_cast_error.
Qed.

(** The rule at the inputs of the specification: shape (2,), last
    component 1.0000001, last component 0.5; and at a number that a
    Point32 does not hold, with the last component 1 and with 0.5. *)
Lemma numpy_to_vector_shape_and_homogeneous_rule_witness :
  numpy_to_vector Vector3 (mk_ndarray float64 [2] [1; 2]%float) = Err ShapeError
  /\ numpy_to_vector Vector3 (mk_ndarray float64 [4] [1; 2; 3; 1.0000001]%float)
     = Ok (Msg_Vector3 (mk_xyz 1 2 3))
  /\ numpy_to_vector Vector3 (mk_ndarray float64 [4] [1; 2; 3; 0.5]%float)
     = Err InvalidHomogeneousComponentError
  /\ numpy_to_vector Point32 (mk_ndarray float64 [4] [1e300; 0; 0; 1]%float)
     = Err CastError
  /\ numpy_to_vector Point32 (mk_ndarray float64 [4] [1e300; 0; 0; 0.5]%float)
     = Err CastError.
Proof.
  destruct (numpy_to_vector_shape_and_homogeneous_rule Vector3) as (Hs & Hh & _).
  destruct (numpy_to_vector_shape_and_homogeneous_rule Point32) as (_ & _ & Hc).
  assert (Hin : In Vector3 vector_classes) by (simpl; auto).
  split; [| split; [| split; [| split]]].
  - apply Hs; discriminate.
  - exact (Hh float64 1%float 2%float 3%float 1.0000001%float Hin eq_refl).
  - exact (Hh float64 1%float 2%float 3%float 0.5%float Hin eq_refl).
  - apply Hc; [right; reflexivity | reflexivity].
  - apply Hc; [right; reflexivity | reflexivity].
Defined.

(** ** Kinematics with covariance *)

Lemma covariance_decoded (c : with_covariance) (message : msg) (homogeneous : bool) :
  message = Msg_AccelWithCovariance c \/ message = Msg_TwistWithCovariance c ->
  length (covariance c) = 36 ->
  kinematics_with_covariance_to_numpy message homogeneous
  = Ok (xyz_array (linear (kinematics c)) homogeneous,
        xyz_array (angular (kinematics c)) homogeneous,
        mk_ndarray float64 [6; 6] (covariance c)).
Proof.
  intros Hm Hlen.
  unfold kinematics_with_covariance_to_numpy, converts_to_numpy.
  destruct Hm as [-> | ->]; simpl;
    rewrite (reshape_np_array_float64 (covariance c) 6 6 Hlen);
    destruct homogeneous; reflexivity.
Qed.

Lemma numpy_to_covariance_ok (array : ndarray) (l : list float) :
  numpy_to_covariance array = Ok l -> shape array = [6; 6] /\ l = data array.
Proof.
  unfold numpy_to_covariance. intro H.
  destruct (_assert_is_castable (Arr array) (Dtype float64)); simpl in H;
    [| discriminate H].
  destruct (shape_eqb (shape array) [6; 6]) eqn:E; simpl in H; [| discriminate H].
  apply shape_eqb_eq in E. split; [exact E | congruence].
Qed.

Lemma numpy_to_covariance_shape_error (array : ndarray) :
  can_cast (min_scalar_type array) float64 = true ->
  shape array <> [6; 6] ->
  numpy_to_covariance array = Err ShapeError.
Proof.
  intros Hc Hs. unfold numpy_to_covariance, _assert_is_castable. simpl.
  rewrite Hc. simpl. apply shape_eqb_neq in Hs. rewrite Hs. reflexivity.
Qed.

Lemma numpy_to_covariance_6x6 (dt : dtype) (l : list float) :
  can_cast dt float64 = true ->
  numpy_to_covariance (mk_ndarray dt [6; 6] l) = Ok l.
Proof.
  intro Hc. unfold numpy_to_covariance. cast_check Hc. reflexivity.
Qed.

(** C5.  The decoder reshapes the 36 numbers of the covariance field
    into a 6x6 matrix in row-major order: element [1][2] is the number
    at index 1*6+2 = 8.  The encoder of the codec,
    [numpy_to_kinematics_with_covariance], raises on every input the
    TypeError of the call of [numpy_to_vector] with one argument, before
    it reaches [numpy_to_covariance]: a covariance of another shape than
    (6,6) does not get the shape error, and the triple the decoder
    returns is not encoded.  [numpy_to_covariance], called by itself,
    does what the encoder is meant to do: on an array that passes the
    cast check it returns the elements of a (6,6) matrix in row-major
    order and raises the shape error for any other shape; an array that
    fails the cast check raises the cast error first. *)
Theorem covariance_encoder_raises_before_the_covariance :
  forall (c : with_covariance) (homogeneous : bool) (message_type : msg_class)
         (linear_array angular_array array : ndarray),
    length (covariance c) = 36 ->
    kinematics_with_covariance_to_numpy (Msg_AccelWithCovariance c) homogeneous
      = Ok (xyz_array (linear (kinematics c)) homogeneous,
            xyz_array (angular (kinematics c)) homogeneous,
            mk_ndarray float64 [6; 6] (covariance c))
    /\ kinematics_with_covariance_to_numpy (Msg_TwistWithCovariance c) homogeneous
      = Ok (xyz_array (linear (kinematics c)) homogeneous,
            xyz_array (angular (kinematics c)) homogeneous,
            mk_ndarray float64 [6; 6] (covariance c))
    /\ item2 (mk_ndarray float64 [6; 6] (covariance c)) 1 2
       = Ok (nth (1 * 6 + 2) (covariance c) 0%float)
    /\ numpy_to_kinematics_with_covariance message_type linear_array angular_array array
       = Err (TypeError (MissingArgument "numpy_to_vector" "array"))
    /\ (decoded <- kinematics_with_covariance_to_numpy
                     (Msg_TwistWithCovariance c) homogeneous ;;
        let '(decoded_linear, decoded_angular, decoded_covariance) := decoded in
        numpy_to_kinematics_with_covariance TwistWithCovariance
          decoded_linear decoded_angular decoded_covariance)
       = Err (TypeError (MissingArgument "numpy_to_vector" "array"))
    /\ numpy_to_covariance (mk_ndarray float64 [6; 6] (covariance c))
       = Ok (covariance c)
    /\ (forall l, numpy_to_covariance array = Ok l ->
                  shape array = [6; 6] /\ l = data array)
    /\ (can_cast (min_scalar_type array) float64 = true ->
        shape array <> [6; 6] ->
        numpy_to_covariance array = Err ShapeError)
    /\ (can_cast (min_scalar_type array) float64 = false ->
        numpy_to_covariance array = Err CastError)
    /\ (shape array = [6; 6] -> dtype_of array = float64 -> well_formed array ->
        exists l, numpy_to_covariance array = Ok l
                  /\ reshape (np_array l float64) 6 6 = Ok array).
Proof.
  intros c homogeneous message_type linear_array angular_array array Hlen.
  split; [| split; [| split; [| split; [| split; [| split;
    [| split; [| split; [| split]]]]]]]].
  - apply covariance_decoded; [left; reflexivity | exact Hlen].
  - apply covariance_decoded; [right; reflexivity | exact Hlen].
  - apply item2_nth; [lia | lia | rewrite Hlen; simpl; lia].
  - apply numpy_to_kinematics_with_covariance_always_raises.
  - rewrite (covariance_decoded c (Msg_TwistWithCovariance c) homogeneous)
      by (auto || exact Hlen).
    cbn [bind]. apply numpy_to_kinematics_with_covariance_always_raises.
  - apply numpy_to_covariance_6x6. reflexivity.
  - apply numpy_to_covariance_ok.
  - apply numpy_to_covariance_shape_error.
  - intro Hc. unfold numpy_to_covariance, _assert_is_castable. simpl.
    rewrite Hc. reflexivity.
  - intros Hs Hd Hwf. destruct array as [dt s l]. simpl in Hs, Hd, Hwf. subst dt s.
    exists l. split.
    + apply numpy_to_covariance_6x6. reflexivity.
    + apply reshape_np_array_float64. exact Hwf.
Qed.

(** The theorem at the covariance 0, 1, ..., 35 and at a covariance of
    shape (5,5): the encoder raises the TypeError on both, where
    [numpy_to_covariance] returns the 36 numbers of the first and raises
    the shape error on the second. *)
Lemma covariance_encoder_raises_before_the_covariance_witness :
  item2 (mk_ndarray float64 [6; 6] (covariance counting_covariance)) 1 2
    = Ok 8%float
  /\ numpy_to_kinematics_with_covariance TwistWithCovariance
       (mk_ndarray float64 [3] [0; 0; 0]%float)
       (mk_ndarray float64 [3] [0; 0; 0]%float)
       (mk_ndarray float64 [6; 6] (covariance counting_covariance))
     = Err (TypeError (MissingArgument "numpy_to_vector" "array"))
  /\ numpy_to_kinematics_with_covariance TwistWithCovariance
       (mk_ndarray float64 [3] [0; 0; 0]%float)
       (mk_ndarray float64 [3] [0; 0; 0]%float)
       (mk_ndarray float64 [5; 5] (repeat 0%float 25))
     = Err (TypeError (MissingArgument "numpy_to_vector" "array"))
  /\ numpy_to_covariance (mk_ndarray float64 [6; 6] (covariance counting_covariance))
     = Ok (covariance counting_covariance)
  /\ numpy_to_covariance (mk_ndarray float64 [5; 5] (repeat 0%float 25))
     = Err ShapeError.
Proof.
  destruct (covariance_encoder_raises_before_the_covariance counting_covariance
              false TwistWithCovariance
              (mk_ndarray float64 [3] [0; 0; 0]%float)
              (mk_ndarray float64 [3] [0; 0; 0]%float)
              (mk_ndarray float64 [6; 6] (covariance counting_covariance))
              eq_refl) as (_ & _ & H12 & Hraise & _ & Hback & _).
  destruct (covariance_encoder_raises_before_the_covariance counting_covariance
              false TwistWithCovariance
              (mk_ndarray float64 [3] [0; 0; 0]%float)
              (mk_ndarray float64 [3] [0; 0; 0]%float)
              (mk_ndarray float64 [5; 5] (repeat 0%float 25))
              eq_refl) as (_ & _ & _ & Hraise5 & _ & _ & _ & Hshape & _).
  split; [exact H12 |]. split; [exact Hraise |]. split; [exact Hraise5 |].
  split; [exact Hback |].
  apply Hshape; [reflexivity | discriminate].
Defined.

(** ** Inertia *)

Lemma tensor_of_symmetric (i : inertia) : symmetric3 (tensor_of i).
Proof.
  split; [reflexivity |].
  intros a b Ha Hb.
  destruct a as [| [| [| a]]]; [| | | lia];
    (destruct b as [| [| [| b]]]; [| | | lia]); reflexivity.
Qed.

Lemma inertia_decoded (i : inertia) (homogeneous : bool) :
  inertia_to_numpy (Msg_Inertia i) homogeneous
  = Ok (m i, xyz_array (com i) homogeneous, tensor_of i).
Proof. destruct homogeneous; reflexivity. Qed.

Lemma numpy_to_inertia_3x3 (mass : scalar) (mass_center : ndarray) (centre : xyz)
    (dt : dtype) (t : list float) :
  can_cast (min_scalar_type_of_scalar mass) float64 = true ->
  can_cast dt float64 = true ->
  numpy_to_vector Vector3 mass_center = Ok (Msg_Vector3 centre) ->
  length t = 9 ->
  numpy_to_inertia Inertia mass mass_center (mk_ndarray dt [3; 3] t)
  = Ok (Msg_Inertia (inertia_of (py_float mass) centre t)).
Proof.
  intros Hm Ht Hv Hlen.
  unfold numpy_to_inertia, converts_to_message.
  unfold _assert_is_castable at 1. cbn [np_min_scalar_type np_can_cast].
  rewrite Hm. cbn [negb bind]. cast_check Ht.
  rewrite Hv. cbn [negb bind shape].
  rewrite !item2_nth by (rewrite ?Hlen; simpl; lia).
  reflexivity.
Qed.

Lemma numpy_to_inertia_ok (mass : scalar) (mass_center inertia_tensor : ndarray)
    (message : msg) :
  numpy_to_inertia Inertia mass mass_center inertia_tensor = Ok message ->
  can_cast (min_scalar_type_of_scalar mass) float64 = true
  /\ can_cast (min_scalar_type inertia_tensor) float64 = true
  /\ shape inertia_tensor = [3; 3]
  /\ exists centre,
       numpy_to_vector Vector3 mass_center = Ok (Msg_Vector3 centre)
       /\ exists t00 t01 t02 t11 t21 t22,
            item2 inertia_tensor 0 0 = Ok t00 /\ item2 inertia_tensor 0 1 = Ok t01
            /\ item2 inertia_tensor 0 2 = Ok t02 /\ item2 inertia_tensor 1 1 = Ok t11
            /\ item2 inertia_tensor 2 1 = Ok t21 /\ item2 inertia_tensor 2 2 = Ok t22
            /\ message = Msg_Inertia
                 (mk_inertia (py_float mass) centre t00 t01 t02 t11 t21 t22).
Proof.
  unfold numpy_to_inertia, _assert_is_castable, converts_to_message.
  cbn [np_min_scalar_type np_can_cast]. intro H.
  destruct (can_cast (min_scalar_type_of_scalar mass) float64);
    cbn [negb bind] in H; [| discriminate H].
  destruct (can_cast (min_scalar_type inertia_tensor) float64);
    cbn [negb bind] in H; [| discriminate H].
  destruct (numpy_to_vector Vector3 mass_center) as [centre_message | e] eqn:Hv;
    cbn [bind] in H; [| discriminate H].
  destruct (shape_eqb (shape inertia_tensor) [3; 3]) eqn:Hs;
    cbn [negb] in H; [| discriminate H].
  apply shape_eqb_eq in Hs.
  destruct (item2 inertia_tensor 0 0) as [t00 | e]; cbn [bind] in H; [| discriminate H].
  destruct (item2 inertia_tensor 0 1) as [t01 | e]; cbn [bind] in H; [| discriminate H].
  destruct (item2 inertia_tensor 0 2) as [t02 | e]; cbn [bind] in H; [| discriminate H].
  destruct (item2 inertia_tensor 1 1) as [t11 | e]; cbn [bind] in H; [| discriminate H].
  destruct (item2 inertia_tensor 2 1) as [t21 | e]; cbn [bind] in H; [| discriminate H].
  destruct (item2 inertia_tensor 2 2) as [t22 | e]; cbn [bind] in H; [| discriminate H].
  repeat split; try assumption; try reflexivity.
  destruct centre_message as [v | | | | | | | | | | | | | | | | | | | | | | | |];
    try discriminate H.
  exists v. split; [reflexivity |].
  exists t00, t01, t02, t11, t21, t22.
  repeat split. injection H as <-. reflexivity.
Qed.

Lemma numpy_to_inertia_shape_error (message_type : msg_class) (mass : scalar)
    (mass_center inertia_tensor : ndarray) :
  can_cast (min_scalar_type_of_scalar mass) float64 = true ->
  can_cast (min_scalar_type inertia_tensor) float64 = true ->
  is_ok (numpy_to_vector Vector3 mass_center) = true ->
  shape inertia_tensor <> [3; 3] ->
  numpy_to_inertia message_type mass mass_center inertia_tensor = Err ShapeError.
Proof.
  intros Hm Ht Hv Hs.
  unfold numpy_to_inertia, _assert_is_castable, converts_to_message.
  cbn [np_min_scalar_type np_can_cast].
  rewrite Hm, Ht. cbn [negb bind].
  destruct (numpy_to_vector Vector3 mass_center); [| discriminate Hv].
  cbn [bind]. apply shape_eqb_neq in Hs. rewrite Hs. reflexivity.
Qed.

Lemma numpy_to_inertia_cast_error (message_type : msg_class) (mass : scalar)
    (mass_center inertia_tensor : ndarray) :
  can_cast (min_scalar_type_of_scalar mass) float64 = false
  \/ can_cast (min_scalar_type inertia_tensor) float64 = false ->
  numpy_to_inertia message_type mass mass_center inertia_tensor = Err CastError.
Proof.
  intros Hc.
  unfold numpy_to_inertia, _assert_is_castable, converts_to_message.
  cbn [np_min_scalar_type np_can_cast].
  destruct (can_cast (min_scalar_type_of_scalar mass) float64); cbn [negb bind];
    [| reflexivity].
  destruct Hc as [Hc | Hc]; [discriminate Hc |].
  rewrite Hc. reflexivity.
Qed.

(** An integer of the range of the 64-bit dtypes passes the cast check
    against [float64]. *)
Lemma python_int_castable (n : Z) :
  (-9223372036854775808 <= n <= 18446744073709551615)%Z ->
  can_cast (min_scalar_type_of_scalar (PyInt n)) float64 = true.
Proof.
  intro Hn. cbn [min_scalar_type_of_scalar]. unfold min_int_type.
  repeat match goal with
         | |- context [(?a <=? ?b)%Z] => destruct (Z.leb_spec a b)
         end; try reflexivity; lia.
Qed.

(** C8.  The decoder returns, for every Inertia message, a 3x3 tensor
    that is symmetric, the six moments mirrored across the diagonal.
    The encoder succeeds only on a tensor of shape (3,3) with mass and
    tensor passing the cast check against [float64]; it raises the cast
    error when one of the two does not, whatever the shape, and the
    shape error for another shape once the checks before it pass; it
    writes ixx, ixy, ixz, iyy, izz from the upper triangle and iyz from
    [tensor[2, 1]].  The cast check is no check of exactness: every
    integer mass of the range of the 64-bit dtypes passes it and is
    stored as [float(mass)], so the masses 2^53 and 2^53 + 1 are both
    accepted and stored as the same number, 9007199254740992.0. *)
Theorem inertia_codec :
  forall (i : inertia) (header : Header) (homogeneous : bool)
         (mass : scalar) (mass_center inertia_tensor : ndarray),
    inertia_to_numpy (Msg_Inertia i) homogeneous
      = Ok (m i, xyz_array (com i) homogeneous, tensor_of i)
    /\ inertia_to_numpy (Msg_InertiaStamped header i) homogeneous
      = Ok (m i, xyz_array (com i) homogeneous, tensor_of i)
    /\ symmetric3 (tensor_of i)
    /\ (forall message,
          numpy_to_inertia Inertia mass mass_center inertia_tensor = Ok message ->
          can_cast (min_scalar_type_of_scalar mass) float64 = true
          /\ can_cast (min_scalar_type inertia_tensor) float64 = true
          /\ shape inertia_tensor = [3; 3]
          /\ exists centre,
               numpy_to_vector Vector3 mass_center = Ok (Msg_Vector3 centre)
               /\ exists t00 t01 t02 t11 t21 t22,
                    item2 inertia_tensor 0 0 = Ok t00
                    /\ item2 inertia_tensor 0 1 = Ok t01
                    /\ item2 inertia_tensor 0 2 = Ok t02
                    /\ item2 inertia_tensor 1 1 = Ok t11
                    /\ item2 inertia_tensor 2 1 = Ok t21
                    /\ item2 inertia_tensor 2 2 = Ok t22
                    /\ message = Msg_Inertia
                         (mk_inertia (py_float mass) centre t00 t01 t02 t11 t21 t22))
    /\ (can_cast (min_scalar_type_of_scalar mass) float64 = false
        \/ can_cast (min_scalar_type inertia_tensor) float64 = false ->
        numpy_to_inertia Inertia mass mass_center inertia_tensor = Err CastError)
    /\ (can_cast (min_scalar_type_of_scalar mass) float64 = true ->
        can_cast (min_scalar_type inertia_tensor) float64 = true ->
        is_ok (numpy_to_vector Vector3 mass_center) = true ->
        shape inertia_tensor <> [3; 3] ->
        numpy_to_inertia Inertia mass mass_center inertia_tensor = Err ShapeError)
    /\ (forall centre dt t,
          can_cast (min_scalar_type_of_scalar mass) float64 = true ->
          can_cast dt float64 = true ->
          numpy_to_vector Vector3 mass_center = Ok (Msg_Vector3 centre) ->
          length t = 9 ->
          numpy_to_inertia Inertia mass mass_center (mk_ndarray dt [3; 3] t)
          = Ok (Msg_Inertia (inertia_of (py_float mass) centre t)))
    /\ (forall (n : Z) centre dt t,
          (-9223372036854775808 <= n <= 18446744073709551615)%Z ->
          can_cast dt float64 = true ->
          numpy_to_vector Vector3 mass_center = Ok (Msg_Vector3 centre) ->
          length t = 9 ->
          numpy_to_inertia Inertia (PyInt n) mass_center (mk_ndarray dt [3; 3] t)
          = Ok (Msg_Inertia (inertia_of (float_of_Z n) centre t)))
    /\ float_of_Z (2 ^ 53 + 1) = 9007199254740992%float
    /\ float_of_Z (2 ^ 53) = 9007199254740992%float.
Proof.
  intros i header homogeneous mass mass_center inertia_tensor.
  split; [| split; [| split; [| split; [| split; [| split;
    [| split; [| split; [| split]]]]]]]].
  - apply inertia_decoded.
  - apply (inertia_decoded i homogeneous).
  - apply tensor_of_symmetric.
  - intro message. apply numpy_to_inertia_ok.
  - apply numpy_to_inertia_cast_error.
  - apply numpy_to_inertia_shape_error.
  - intros centre dt t. apply numpy_to_inertia_3x3.
  - intros n centre dt t Hn Ht Hv Hlen.
    apply (numpy_to_inertia_3x3 (PyInt n) mass_center centre dt t);
      [apply python_int_castable; exact Hn | exact Ht | exact Hv | exact Hlen].
  - vm_compute. reflexivity.
  - vm_compute. reflexivity.
Qed.

(** The codec at a tensor that is not symmetric, at a mass beyond the
    64-bit integers, at a tensor of another shape, of numbers and of
    objects, and at the mass 2^53 + 1. *)
Lemma inertia_codec_witness :
  numpy_to_inertia Inertia (PyFloat 2)
    (mk_ndarray float64 [3] [1; 2; 3]%float)
    (mk_ndarray float64 [3; 3] [11; 12; 13; 21; 22; 23; 31; 32; 33]%float)
  = Ok (Msg_Inertia (mk_inertia 2 (mk_xyz 1 2 3) 11 12 13 22 32 33))
  /\ numpy_to_inertia Inertia (PyInt (2 ^ 64))
       (mk_ndarray float64 [3] [1; 2; 3]%float)
       (mk_ndarray float64 [3; 3] [11; 12; 13; 21; 22; 23; 31; 32; 33]%float)
     = Err CastError
  /\ numpy_to_inertia Inertia (PyFloat 2)
       (mk_ndarray float64 [3] [1; 2; 3]%float)
       (mk_ndarray float64 [6; 6] [])
     = Err ShapeError
  /\ numpy_to_inertia Inertia (PyFloat 2)
       (mk_ndarray float64 [3] [1; 2; 3]%float)
       (mk_ndarray object_ [6; 6] [])
     = Err CastError
  /\ numpy_to_inertia Inertia (PyInt (2 ^ 53 + 1))
       (mk_ndarray float64 [3] [1; 2; 3]%float)
       (mk_ndarray float64 [3; 3] [11; 12; 13; 21; 22; 23; 31; 32; 33]%float)
     = Ok (Msg_Inertia
             (mk_inertia (float_of_Z (2 ^ 53 + 1)) (mk_xyz 1 2 3) 11 12 13 22 32 33)).
Proof.
  split; [| split; [| split; [| split]]].
  - destruct (inertia_codec zero_inertia zero_Header false (PyFloat 2)
                (mk_ndarray float64 [3] [1; 2; 3]%float)
                (mk_ndarray float64 [3; 3] [11; 12; 13; 21; 22; 23; 31; 32; 33]%float))
      as (_ & _ & _ & _ & _ & _ & H & _).
    exact (H (mk_xyz 1 2 3) float64 [11; 12; 13; 21; 22; 23; 31; 32; 33]%float
             eq_refl eq_refl eq_refl eq_refl).
  - destruct (inertia_codec zero_inertia zero_Header false (PyInt (2 ^ 64))
                (mk_ndarray float64 [3] [1; 2; 3]%float)
                (mk_ndarray float64 [3; 3] [11; 12; 13; 21; 22; 23; 31; 32; 33]%float))
      as (_ & _ & _ & _ & H & _).
    apply H. left. reflexivity.
  - destruct (inertia_codec zero_inertia zero_Header false (PyFloat 2)
                (mk_ndarray float64 [3] [1; 2; 3]%float)
                (mk_ndarray float64 [6; 6] []))
      as (_ & _ & _ & _ & _ & H & _).
    apply H; [reflexivity | reflexivity | reflexivity | discriminate].
  - destruct (inertia_codec zero_inertia zero_Header false (PyFloat 2)
                (mk_ndarray float64 [3] [1; 2; 3]%float)
                (mk_ndarray object_ [6; 6] []))
      as (_ & _ & _ & _ & H & _).
    apply H. right. reflexivity.
  - destruct (inertia_codec zero_inertia zero_Header false (PyFloat 2)
                (mk_ndarray float64 [3] [1; 2; 3]%float)
                (mk_ndarray float64 [3; 3] [11; 12; 13; 21; 22; 23; 31; 32; 33]%float))
      as (_ & _ & _ & _ & _ & _ & _ & H & _).
    exact (H (2 ^ 53 + 1)%Z (mk_xyz 1 2 3) float64
             [11; 12; 13; 21; 22; 23; 31; 32; 33]%float
             ltac:(vm_compute; split; discriminate) eq_refl eq_refl eq_refl).
Defined.

(** ** Polygons *)

(** *** Rows, columns and row-major order *)

Lemma firstn_plus {A : Type} (a b : nat) (l : list A) :
  firstn (a + b) l = firstn a l ++ firstn b (skipn a l).
Proof.
  revert l. induction a as [| a IH]; intro l; [reflexivity |].
  destruct l as [| v l]; simpl.
  - rewrite firstn_nil. reflexivity.
  - rewrite IH. reflexivity.
Qed.

(** A stretch of consecutive elements, read by index. *)
Lemma map_nth_seq (d : list float) (k n : nat) :
  k + n <= length d ->
  map (fun i => nth (k + i) d 0%float) (seq 0 n) = firstn n (skipn k d).
Proof.
  intro H.
  apply (nth_ext _ _ 0%float 0%float).
  - rewrite length_map, length_seq, length_firstn, length_skipn. lia.
  - intros i Hi. rewrite length_map, length_seq in Hi.
    rewrite (nth_indep _ 0%float (nth (k + 0) d 0%float))
      by (rewrite length_map, length_seq; exact Hi).
    rewrite (map_nth (fun i => nth (k + i) d 0%float)), seq_nth by exact Hi.
    rewrite nth_firstn, nth_skipn.
    apply Nat.ltb_lt in Hi. rewrite Hi. reflexivity.
Qed.

(** The rows of a matrix, one after the other, are its elements. *)
Lemma rows_in_order (d : list float) (r n : nat) :
  r * n <= length d ->
  flat_map (fun i => map (fun j => nth (i * n + j) d 0%float) (seq 0 n)) (seq 0 r)
  = firstn (r * n) d.
Proof.
  induction r as [| r IH]; intro H; [reflexivity |].
  rewrite seq_S, flat_map_app, IH by lia. simpl.
  rewrite app_nil_r, map_nth_seq by lia.
  replace (n + r * n) with (r * n + n) by lia.
  rewrite firstn_plus. reflexivity.
Qed.

(** Blocks of one length [k], one after the other: element [j] of
    block [i] is at index [i * k + j]. *)
Lemma nth_flat_map_blocks {A : Type} (f : A -> list float) (k : nat) (l : list A)
    (i j : nat) (a0 : A) :
  (forall a, length (f a) = k) -> i < length l -> j < k ->
  nth (i * k + j) (flat_map f l) 0%float = nth j (f (nth i l a0)) 0%float.
Proof.
  intros Hk. revert i. induction l as [| a l IH]; intros i Hi Hj; simpl in Hi.
  - lia.
  - simpl. destruct i as [| i].
    + simpl. rewrite app_nth1 by (rewrite Hk; exact Hj). reflexivity.
    + rewrite app_nth2 by (rewrite Hk; simpl; lia).
      rewrite Hk. replace (S i * k + j - k) with (i * k + j) by (simpl; lia).
      apply IH; [lia | exact Hj].
Qed.

Lemma flat_map_map {A B C : Type} (f : B -> list C) (g : A -> B) (l : list A) :
  flat_map f (map g l) = flat_map (fun a => f (g a)) l.
Proof.
  induction l as [| a l IH]; simpl; [reflexivity |].
  rewrite IH. reflexivity.
Qed.

Lemma flat_map_ext_in {A B : Type} (f g : A -> list B) (l : list A) :
  (forall a, In a l -> f a = g a) -> flat_map f l = flat_map g l.
Proof.
  induction l as [| a l IH]; intro H; simpl; [reflexivity |].
  rewrite (H a) by (left; reflexivity).
  rewrite IH by (intros b Hb; apply H; right; exact Hb).
  reflexivity.
Qed.

Lemma map_flat_map {A B C : Type} (g : B -> C) (f : A -> list B) (l : list A) :
  map g (flat_map f l) = flat_map (fun a => map g (f a)) l.
Proof.
  induction l as [| a l IH]; simpl; [reflexivity |].
  rewrite map_app, IH. reflexivity.
Qed.

(** *** The codec *)

Lemma is_float32_nth (d : list float) (k : nat) :
  Forall is_float32 d -> round32 (nth k d 0%float) = nth k d 0%float.
Proof.
  intro H. destruct (Nat.lt_ge_cases k (length d)) as [Hk | Hk].
  - rewrite Forall_forall in H. apply H. apply nth_In. exact Hk.
  - rewrite nth_overflow by exact Hk. reflexivity.
Qed.

Lemma new_polygon (ps : list xyz) :
  new_message Polygon [VMsgs (map Msg_Point32 ps)] = Ok (Msg_Polygon ps).
Proof.
  unfold new_message. cbn [length slots Nat.eqb combine set_fields default_msg].
  unfold setattr. cbn [class_of slots existsb String.eqb Ascii.eqb Bool.eqb orb negb].
  rewrite mapM_map, (mapM_ok_in _ (fun v => v)) by reflexivity.
  rewrite map_id. reflexivity.
Qed.

Lemma column_to_point (dt : dtype) (d : list float) (r n j : nat) :
  can_cast dt float32 = true ->
  r = 3 \/ (r = 4 /\ isclose (nth (3 * n + j) d 0%float) 1 = true) ->
  numpy_to_vector Point32 (squeeze (mk_ndarray dt [r; 1] (column d r n j)))
  = Ok (Msg_Point32 (point_of_column (column d r n j))).
Proof.
  intros Hc [-> | [-> Hclose]].
  - apply (numpy_to_vector_3 Point32); [simpl; auto | exact Hc].
  - unfold squeeze, column. cbn [shape data dtype_of filter Nat.eqb negb seq map].
    rewrite (numpy_to_vector_4 Point32) by (simpl; auto).
    rewrite Hclose. reflexivity.
Qed.

Lemma numpy_to_polygon_ok (dt : dtype) (r n : nat) (d : list float) :
  can_cast dt float32 = true ->
  r = 3 \/ r = 4 ->
  1 <= n ->
  (r = 4 -> forall j, j < n -> isclose (nth (3 * n + j) d 0%float) 1 = true) ->
  numpy_to_polygon Polygon (mk_ndarray dt [r; n] d)
  = Ok (Msg_Polygon (points_of d r n)).
Proof.
  intros Hc Hr Hn Hclose.
  unfold numpy_to_polygon, converts_to_message. cast_check Hc.
  cbn [ndim shape length Nat.eqb hd nth].
  replace (existsb (Nat.eqb r) [3; 4]) with true
    by (destruct Hr as [-> | ->]; reflexivity).
  cbn [negb orb]. unfold hsplit. cbn [shape dtype_of data].
  destruct n as [| n']; [lia |]. cbn [bind].
  rewrite mapM_map.
  rewrite (mapM_ok_in _ (fun j => Msg_Point32 (point_of_column (column d r (S n') j)))).
  - cbn [bind]. rewrite <- (map_map _ Msg_Point32). apply new_polygon.
  - intros j Hj. apply in_seq in Hj. apply column_to_point; [exact Hc |].
    destruct Hr as [-> | ->]; [left; reflexivity | right].
    split; [reflexivity | apply Hclose; [reflexivity | lia]].
Qed.

Lemma polygon_to_numpy_points (ps : list xyz) (header : Header) :
  polygon_to_numpy (Msg_Polygon ps) false
  = Ok (transpose
          (np_stack (map (fun p => np_array [x p; y p; z p] float32) ps) float32))
  /\ polygon_to_numpy (Msg_PolygonStamped header ps) false
     = polygon_to_numpy (Msg_Polygon ps) false.
Proof.
  split; [| reflexivity].
  unfold polygon_to_numpy, converts_to_numpy. rewrite _unstamp_unwrapped.
  cbn [unwrapped stamped_payload bind getattr_list].
  rewrite mapM_map.
  rewrite (mapM_ok_in _ (fun p => np_array [x p; y p; z p] float32))
    by reflexivity.
  reflexivity.
Qed.

Lemma np_stack_rows (rows : list ndarray) (k : nat) (dt : dtype) :
  rows <> [] -> (forall r, In r rows -> shape r = [k]) ->
  np_stack rows dt
  = mk_ndarray dt [length rows; k] (map (cast dt) (flat_map data rows)).
Proof.
  intros Hne Hk. destruct rows as [| r0 rows]; [congruence |].
  unfold np_stack. rewrite (Hk r0) by (left; reflexivity). reflexivity.
Qed.

(** The elements of the stacked points: point [i] holds the elements
    [i], [n + i] and [2n + i] of the matrix. *)
Lemma stacked_points (d : list float) (r n : nat) :
  r = 3 \/ r = 4 ->
  Forall is_float32 d ->
  map (cast float32)
    (flat_map data
       (map (fun p => np_array [x p; y p; z p] float32) (points_of d r n)))
  = flat_map (fun i => [nth (0 * n + i) d 0%float;
                        nth (1 * n + i) d 0%float;
                        nth (2 * n + i) d 0%float]) (seq 0 n).
Proof.
  intros Hr Hd. unfold points_of.
  rewrite map_map, flat_map_map, map_flat_map.
  apply flat_map_ext. intro i.
  unfold column, point_of_column, np_array.
  destruct Hr as [-> | ->];
    cbn [data map seq nth x y z cast];
    rewrite !is_float32_nth by exact Hd; reflexivity.
Qed.

Lemma transposed_points (d : list float) (n : nat) :
  3 * n <= length d ->
  flat_map
    (fun j => column
                (flat_map (fun i => [nth (0 * n + i) d 0%float;
                                     nth (1 * n + i) d 0%float;
                                     nth (2 * n + i) d 0%float]) (seq 0 n))
                n 3 j)
    (seq 0 3)
  = firstn (3 * n) d.
Proof.
  intro H. rewrite <- rows_in_order by exact H.
  apply flat_map_ext_in. intros j Hj. apply in_seq in Hj.
  unfold column. apply map_ext_in. intros i Hi. apply in_seq in Hi.
  rewrite (nth_flat_map_blocks _ 3 _ i j 0)
    by (try reflexivity; try rewrite length_seq; lia).
  rewrite seq_nth by lia.
  destruct j as [| [| [| j]]]; [reflexivity | reflexivity | reflexivity | lia].
Qed.

Lemma polygon_decoded (d : list float) (r n : nat) :
  r = 3 \/ r = 4 ->
  1 <= n ->
  3 * n <= length d ->
  Forall is_float32 d ->
  polygon_to_numpy (Msg_Polygon (points_of d r n)) false
  = Ok (mk_ndarray float32 [3; n] (firstn (3 * n) d)).
Proof.
  intros Hr Hn Hlen Hd.
  rewrite (proj1 (polygon_to_numpy_points _ zero_Header)). f_equal.
  rewrite (np_stack_rows _ 3).
  - rewrite stacked_points by assumption.
    rewrite length_map. unfold points_of. rewrite length_map, length_seq.
    unfold transpose. cbn [shape dtype_of data].
    rewrite transposed_points by exact Hlen. reflexivity.
  - unfold points_of. destruct n as [| n']; [lia | discriminate].
  - intros row Hrow. apply in_map_iff in Hrow. destruct Hrow as (p & <- & _).
    reflexivity.
Qed.

Lemma numpy_to_polygon_shape_error (message_type : msg_class) (points : ndarray) :
  can_cast (min_scalar_type points) float32 = true ->
  ndim points <> 2 \/ (hd 0 (shape points) <> 3 /\ hd 0 (shape points) <> 4) ->
  numpy_to_polygon message_type points = Err ShapeError.
Proof.
  intros Hc Hs. unfold numpy_to_polygon, _assert_is_castable, converts_to_message.
  cbn [np_min_scalar_type np_can_cast]. rewrite Hc. cbn [negb bind].
  destruct Hs as [Hs | [H3 H4]].
  - apply Nat.eqb_neq in Hs. rewrite Hs. reflexivity.
  - apply Nat.eqb_neq in H3, H4. cbn [existsb]. rewrite H3, H4.
    rewrite orb_true_r. reflexivity.
Qed.

Lemma mapM_err_in {A B : Type} (f : A -> result B) (l : list A) (e : exn) :
  (forall a, In a l -> is_ok (f a) = true \/ f a = Err e) ->
  (exists a, In a l /\ f a = Err e) ->
  mapM f l = Err e.
Proof.
  induction l as [| a l IH]; intros Hall (b & Hin & Hb); [destruct Hin |].
  simpl. destruct (f a) as [v | e'] eqn:Ha.
  - simpl. rewrite IH; [reflexivity | |].
    + intros c Hc. apply Hall. right. exact Hc.
    + destruct Hin as [<- | Hin]; [congruence |]. exists b. split; assumption.
  - destruct (Hall a (or_introl eq_refl)) as [H | H]; rewrite Ha in H.
    + discriminate H.
    + simpl. injection H as ->. reflexivity.
Qed.

Lemma numpy_to_polygon_bad_component (dt : dtype) (n : nat) (d : list float) :
  can_cast dt float32 = true ->
  (exists j, j < n /\ isclose (nth (3 * n + j) d 0%float) 1 = false) ->
  numpy_to_polygon Polygon (mk_ndarray dt [4; n] d)
  = Err InvalidHomogeneousComponentError.
Proof.
  intros Hc (j & Hj & Hbad).
  unfold numpy_to_polygon, converts_to_message. cast_check Hc.
  cbn [negb ndim shape length Nat.eqb hd nth existsb orb].
  unfold hsplit. cbn [shape dtype_of data].
  destruct n as [| n']; [lia |]. cbn [bind].
  rewrite mapM_map.
  assert (Hcol : forall k,
             numpy_to_vector Point32
               (squeeze (mk_ndarray dt [4; 1] (column d 4 (S n') k)))
             = if isclose (nth (3 * S n' + k) d 0%float) 1
               then Ok (Msg_Point32 (point_of_column (column d 4 (S n') k)))
               else Err InvalidHomogeneousComponentError).
  { intro k. unfold squeeze, column.
    cbn [shape data dtype_of filter Nat.eqb negb seq map].
    rewrite (numpy_to_vector_4 Point32) by (simpl; auto). reflexivity. }
  rewrite (mapM_err_in _ _ InvalidHomogeneousComponentError); [reflexivity | |].
  - intros k _. rewrite Hcol.
    destruct (isclose (nth (3 * S n' + k) d 0%float) 1); [left | right]; reflexivity.
  - exists j. split; [apply in_seq; lia |]. rewrite Hcol, Hbad. reflexivity.
Qed.

(** C7, as stated, fails on arrays of four rows: every column goes
    through [numpy_to_vector], so a last row that is not close to 1
    raises the error of the component; and where the last row is 1, the
    decoder called as the encoder's inverse returns three rows.  The
    cast check comes before the shape check: an array of shape (2,) that
    holds 1e300 raises the cast error. *)
Lemma polygon_roundtrip_counterexample :
  numpy_to_polygon Polygon (mk_ndarray float32 [4; 1] [1; 2; 3; 0.5]%float)
    = Err InvalidHomogeneousComponentError
  /\ (message <- numpy_to_polygon Polygon (mk_ndarray float32 [4; 1] [1; 2; 3; 1]%float) ;;
      polygon_to_numpy message false)
     = Ok (mk_ndarray float32 [3; 1] [1; 2; 3]%float)
  /\ numpy_to_polygon Polygon (mk_ndarray float64 [2] [1e300; 2]%float)
     = Err CastError
  /\ ~ polygon_roundtrip_as_claimed.
Proof.
  split; [reflexivity |]. split; [reflexivity |]. split; [reflexivity |].
  intro H.
  destruct (H (mk_ndarray float32 [4; 1] [1; 2; 3; 0.5]%float) 4 1)
    as (ps & homogeneous & decoded & Henc & _).
  - reflexivity.
  - right. reflexivity.
  - reflexivity.
  - reflexivity.
  - repeat (constructor; [reflexivity |]). constructor.
  - vm_compute in Henc. discriminate Henc.
Qed.

(** C7, amended.  An array that passes the cast check, with at least one
    column and either 3 rows, or 4 rows the last of which is close to 1
    throughout, is encoded to one point per column, built from the first
    three elements of the column; a last row with an element that is not
    close to 1 raises the error of the component.  Decoding the polygon
    returns the first three rows as a [float32] array, the whole input
    when it has 3 rows.  An array that passes the cast check and is not
    2-D with 3 or 4 rows raises the shape error. *)
Theorem polygon_codec :
  forall (dt : dtype) (r n : nat) (d : list float),
    can_cast dt float32 = true ->
    r = 3 \/ r = 4 ->
    1 <= n ->
    length d = r * n ->
    ((r = 4 -> forall j, j < n -> isclose (nth (3 * n + j) d 0%float) 1 = true) ->
     numpy_to_polygon Polygon (mk_ndarray dt [r; n] d)
       = Ok (Msg_Polygon (points_of d r n))
     /\ length (points_of d r n) = n
     /\ (forall j, j < n ->
           nth j (points_of d r n) zero_xyz
           = mk_xyz (nth j d 0%float) (nth (n + j) d 0%float)
                    (nth (2 * n + j) d 0%float)))
    /\ (r = 4 ->
        (exists j, j < n /\ isclose (nth (3 * n + j) d 0%float) 1 = false) ->
        numpy_to_polygon Polygon (mk_ndarray dt [r; n] d)
          = Err InvalidHomogeneousComponentError)
    /\ (Forall is_float32 d ->
        polygon_to_numpy (Msg_Polygon (points_of d r n)) false
          = Ok (mk_ndarray float32 [3; n] (firstn (3 * n) d))
        /\ (r = 3 ->
            polygon_to_numpy (Msg_Polygon (points_of d r n)) false
              = Ok (mk_ndarray float32 [r; n] d)))
    /\ (forall points : ndarray,
          can_cast (min_scalar_type points) float32 = true ->
          ndim points <> 2
          \/ (hd 0 (shape points) <> 3 /\ hd 0 (shape points) <> 4) ->
          numpy_to_polygon Polygon points = Err ShapeError).
Proof.
  intros dt r n d Hc Hr Hn Hlen.
  split; [| split; [| split]].
  - intro Hclose. split; [| split].
    + apply numpy_to_polygon_ok; assumption.
    + unfold points_of. rewrite length_map, length_seq. reflexivity.
    + intros j Hj. unfold points_of.
      rewrite (nth_indep _ zero_xyz (point_of_column (column d r n 0)))
        by (rewrite length_map, length_seq; exact Hj).
      rewrite (map_nth (fun j => point_of_column (column d r n j))).
      rewrite seq_nth by exact Hj.
      unfold point_of_column, column.
      destruct Hr as [-> | ->]; cbn [seq map nth]; repeat f_equal; lia.
  - intros -> Hbad. apply numpy_to_polygon_bad_component; assumption.
  - intro Hd.
    assert (H3 : 3 * n <= length d) by (destruct Hr as [-> | ->]; lia).
    split.
    + apply polygon_decoded; assumption.
    + intros ->. rewrite polygon_decoded by assumption.
      rewrite <- Hlen, firstn_all. reflexivity.
  - intro points. apply numpy_to_polygon_shape_error.
Qed.

(** The codec at the four points of [four_points]. *)
Lemma polygon_codec_witness :
  numpy_to_polygon Polygon four_points
    = Ok (Msg_Polygon [mk_xyz 1 5 9; mk_xyz 2 6 10; mk_xyz 3 7 11; mk_xyz 4 8 12])
  /\ polygon_to_numpy
       (Msg_Polygon [mk_xyz 1 5 9; mk_xyz 2 6 10; mk_xyz 3 7 11; mk_xyz 4 8 12])
       false
     = Ok four_points.
Proof.
  destruct (polygon_codec float32 3 4 (data four_points) eq_refl
              (or_introl eq_refl) (le_S _ _ (le_S _ _ (le_S _ _ (le_n 1)))) eq_refl)
    as (Henc & _ & Hdec & _).
  split.
  - apply Henc. intro H. discriminate H.
  - apply Hdec; [| reflexivity].
    repeat (constructor; [reflexivity |]). constructor.
Defined.

(** * Further properties of the module *)

(** ** Vectors and points: the two round trips *)

(** X1.  Encoding what the decoder returns for a Vector3 or a Point
    gives the message back, in both modes of the decoder; from a stamped
    message it gives the payload, the header being dropped. *)
Theorem vector_message_roundtrip :
  forall (v : xyz) (header : Header) (homogeneous : bool),
    (array <- vector_to_numpy (Msg_Vector3 v) homogeneous ;;
     numpy_to_vector Vector3 array) = Ok (Msg_Vector3 v)
    /\ (array <- vector_to_numpy (Msg_Point v) homogeneous ;;
        numpy_to_vector Point array) = Ok (Msg_Point v)
    /\ (array <- vector_to_numpy (Msg_Vector3Stamped header v) homogeneous ;;
        numpy_to_vector Vector3 array) = Ok (Msg_Vector3 v)
    /\ (array <- vector_to_numpy (Msg_PointStamped header v) homogeneous ;;
        numpy_to_vector Point array) = Ok (Msg_Point v).
Proof.
  intros [a b c] header homogeneous.
  destruct homogeneous; repeat split; reflexivity.
Qed.

(** X2.  A Point32 is decoded to a [float32] array: encoding it again
    gives the Point32 of the rounded fields, the message itself when its
    fields are [float32] numbers.  The array of a Vector3 or a Point is a
    [float64] array, which the encoder refuses for Point32. *)
Theorem point32_roundtrip :
  forall (v : xyz) (homogeneous : bool),
    (array <- vector_to_numpy (Msg_Point32 v) homogeneous ;;
     numpy_to_vector Point32 array)
    = Ok (Msg_Point32 (mk_xyz (round32 (x v)) (round32 (y v)) (round32 (z v))))
    /\ (is_float32 (x v) -> is_float32 (y v) -> is_float32 (z v) ->
        (array <- vector_to_numpy (Msg_Point32 v) homogeneous ;;
         numpy_to_vector Point32 array) = Ok (Msg_Point32 v))
    /\ (array <- vector_to_numpy (Msg_Vector3 v) homogeneous ;;
        numpy_to_vector Point32 array) = Err CastError
    /\ (array <- vector_to_numpy (Msg_Point v) homogeneous ;;
        numpy_to_vector Point32 array) = Err CastError
    /\ (array <- vector_to_numpy (Msg_Point32 v) homogeneous ;;
        numpy_to_vector Point array)
       = Ok (Msg_Point (mk_xyz (round32 (x v)) (round32 (y v)) (round32 (z v)))).
Proof.
  intros [a b c] homogeneous.
  assert (H : (array <- vector_to_numpy (Msg_Point32 (mk_xyz a b c)) homogeneous ;;
               numpy_to_vector Point32 array)
              = Ok (Msg_Point32 (mk_xyz (round32 a) (round32 b) (round32 c))))
    by (destruct homogeneous; reflexivity).
  split; [exact H |]. split; [| destruct homogeneous; repeat split; reflexivity].
  unfold is_float32. cbn [x y z]. intros Ha Hb Hc.
  rewrite H, Ha, Hb, Hc. reflexivity.
Qed.

Lemma point32_roundtrip_witness :
  (array <- vector_to_numpy (Msg_Point32 (mk_xyz 1 2.5 (-3))) true ;;
   numpy_to_vector Point32 array) = Ok (Msg_Point32 (mk_xyz 1 2.5 (-3))).
Proof.
  apply (proj1 (proj2 (point32_roundtrip (mk_xyz 1 2.5 (-3)) true)));
    reflexivity.
Defined.

Lemma held_by_value_castable (dt : dtype) :
  held_by_value dt = true -> can_cast dt float64 = true.
Proof. destruct dt; (reflexivity || discriminate). Qed.

(** X3.  Decoding what the encoder builds for Vector3 or Point from an
    array of a floating-point dtype or of an integer dtype of up to 32
    bits returns the three numbers as a [float64] array, whatever the
    dtype they came in; of an array of four whose last component is
    close to 1, the decoder in homogeneous mode returns the first three
    and exactly 1. *)
Theorem vector_array_roundtrip :
  forall (message_type : msg_class) (dt : dtype) (a b c last : float),
    In message_type [Vector3; Point] ->
    held_by_value dt = true ->
    (message <- numpy_to_vector message_type (mk_ndarray dt [3] [a; b; c]) ;;
     vector_to_numpy message false)
    = Ok (mk_ndarray float64 [3] [a; b; c])
    /\ (isclose last 1 = true ->
        (message <- numpy_to_vector message_type (mk_ndarray dt [4] [a; b; c; last]) ;;
         vector_to_numpy message true)
        = Ok (mk_ndarray float64 [4] [a; b; c; 1%float])).
Proof.
  intros message_type dt a b c last Hin Hdt.
  assert (Hc := held_by_value_castable dt Hdt).
  assert (Hv : In message_type vector_classes)
    by (destruct Hin as [<- | [<- | []]]; simpl; auto).
  assert (Ht : target_dtype message_type = float64)
    by (destruct Hin as [<- | [<- | []]]; reflexivity).
  split.
  - rewrite numpy_to_vector_3 by (rewrite ?Ht; assumption).
    destruct Hin as [<- | [<- | []]]; reflexivity.
  - intro Hclose.
    rewrite numpy_to_vector_4, Hclose by (rewrite ?Ht; assumption).
    destruct Hin as [<- | [<- | []]]; reflexivity.
Qed.

Lemma vector_array_roundtrip_witness :
  (message <- numpy_to_vector Point (mk_ndarray int16 [3] [1; 2; 3]%float) ;;
   vector_to_numpy message false)
  = Ok (mk_ndarray float64 [3] [1; 2; 3]%float)
  /\ (message <-
        numpy_to_vector Point (mk_ndarray float32 [4] [1; 2; 3; 0x1.000002p+0]%float) ;;
      vector_to_numpy message true)
     = Ok (mk_ndarray float64 [4] [1; 2; 3; 1]%float).
Proof.
  split.
  - exact (proj1 (vector_array_roundtrip Point int16 1 2 3 1
                    (or_intror (or_introl eq_refl)) eq_refl)).
  - exact (proj2 (vector_array_roundtrip Point float32 1 2 3 0x1.000002p+0
                    (or_intror (or_introl eq_refl)) eq_refl) eq_refl).
Defined.

(** ** Stamped messages *)

Lemma unwrapped_not_stamped (message : msg) :
  dict_get _stamped_type_to_attr (class_of (unwrapped message)) = None.
Proof. destruct message; reflexivity. Qed.

(** X4.  What [_unstamp] returns is never a message of a class of
    [_stamped_type_to_attr]: unwrapping twice is unwrapping once.  The
    table names each stamped class once, with an attribute name that is
    not empty. *)
Theorem unstamp_idempotent :
  forall (message : msg),
    (payload <- _unstamp message ;; _unstamp payload) = _unstamp message
    /\ (forall payload, _unstamp message = Ok payload ->
                        dict_get _stamped_type_to_attr (class_of payload) = None)
    /\ NoDup (map fst _stamped_type_to_attr)
    /\ Forall (fun entry => snd entry <> "") _stamped_type_to_attr.
Proof.
  intro message. split; [| split; [| split]].
  - rewrite _unstamp_unwrapped. cbn [bind].
    rewrite _unstamp_unwrapped, unwrapped_idempotent. reflexivity.
  - intros payload H. rewrite _unstamp_unwrapped in H.
    injection H as <-. apply unwrapped_not_stamped.
  - repeat constructor; simpl; intuition discriminate.
  - repeat constructor; discriminate.
Qed.

(** ** The messages a decoder accepts *)

Lemma polygon_points_decoded (ps : list xyz) (homogeneous : bool) :
  mapM (fun p => vector_to_numpy p homogeneous) (map Msg_Point32 ps)
  = Ok (map (fun p => xyz_array32 p homogeneous) ps).
Proof.
  rewrite mapM_map. apply mapM_ok_in.
  intros p _. destruct homogeneous; reflexivity.
Qed.

(** The decoder with covariance, up to the reshaping of the field. *)
Lemma covariance_decoding (c : with_covariance) (header : Header)
    (message : msg) (homogeneous : bool) :
  In message [Msg_AccelWithCovariance c; Msg_TwistWithCovariance c;
              Msg_AccelWithCovarianceStamped header c;
              Msg_TwistWithCovarianceStamped header c] ->
  kinematics_with_covariance_to_numpy message homogeneous
  = (matrix <- reshape (np_array (covariance c) float64) 6 6 ;;
     Ok (xyz_array (linear (kinematics c)) homogeneous,
         xyz_array (angular (kinematics c)) homogeneous,
         matrix)).
Proof.
  intros [<- | [<- | [<- | [<- | []]]]]; destruct homogeneous; reflexivity.
Qed.

Lemma is_ok_reshaped {A : Type} (l : list float) (k : ndarray -> A) :
  is_ok (matrix <- reshape (np_array l float64) 6 6 ;; Ok (k matrix))
  = (length l =? 36).
Proof.
  unfold reshape, np_array. cbn [data dtype_of]. rewrite length_map.
  change (6 * 6) with 36. destruct (length l =? 36); reflexivity.
Qed.

(** X5.  A decoder reads attributes and raises [AttributeError] on a
    message that lacks one: each returns a value exactly on the classes
    that have the attributes it reads.  These are the classes it is
    registered for, except that [vector_to_numpy] also accepts a
    Quaternion, stamped or not, of which it returns x, y and z. *)
Theorem decoders_accept :
  forall (message : msg) (homogeneous : bool)
         (as_rotation_matrix : quaternion -> result ndarray),
    is_ok (vector_to_numpy message homogeneous)
      = has_class vector_like_classes message
    /\ is_ok (kinematics_to_numpy message homogeneous)
       = has_class kinematics_classes message
    /\ is_ok (kinematics_with_covariance_to_numpy message homogeneous)
       = has_class covariance_classes message
         && (length (covariance_of message) =? 36)
    /\ is_ok (inertia_to_numpy message homogeneous)
       = has_class [Inertia; InertiaStamped] message
    /\ is_ok (polygon_to_numpy message homogeneous)
       = has_class [Polygon; PolygonStamped] message
    /\ is_ok (quaternion_to_numpy message)
       = has_class [Quaternion; QuaternionStamped] message
    /\ is_ok (frame_to_numpy as_rotation_matrix message false)
       = has_class frame_classes message
    /\ (forall q header,
          vector_to_numpy (Msg_Quaternion q) homogeneous
            = Ok (xyz_array (mk_xyz (qx q) (qy q) (qz q)) homogeneous)
          /\ vector_to_numpy (Msg_QuaternionStamped header q) homogeneous
            = Ok (xyz_array (mk_xyz (qx q) (qy q) (qz q)) homogeneous)).
Proof.
  intros message homogeneous rot.
  split; [destruct message; destruct homogeneous; reflexivity |].
  split; [destruct message; destruct homogeneous; reflexivity |].
  split.
  { destruct message; try reflexivity;
      match goal with
      | h : Header |- context [covariance_of (_ _ ?c)] =>
          rewrite (covariance_decoding c h) by (simpl; auto)
      | |- context [covariance_of (_ ?c)] =>
          rewrite (covariance_decoding c zero_Header) by (simpl; auto)
      end;
      apply is_ok_reshaped. }
  split; [destruct message; destruct homogeneous; reflexivity |].
  split.
  { unfold polygon_to_numpy, converts_to_numpy. rewrite _unstamp_unwrapped.
    destruct message; try reflexivity;
      cbn [unwrapped stamped_payload bind getattr_list];
      rewrite polygon_points_decoded; reflexivity. }
  split; [destruct message; reflexivity |].
  split; [destruct message; reflexivity |].
  intros q header. destruct homogeneous; split; reflexivity.
Qed.

(** ** Quaternions: from the numeric value and back *)

(** X6.  A quaternion is encoded with its four components in the order
    of [as_float_array], scalar part first, as the fields x, y, z, w;
    an array of four numbers is encoded element by element.  Decoding
    the message gives the quaternion back, and the array of a quaternion
    is encoded as the quaternion is. *)
Theorem quaternion_numpy_roundtrip :
  forall (q : quaternion) (dt : dtype) (a b c d : float),
    numpy_to_quaternion Quaternion (Quat q)
      = Ok (Msg_Quaternion (mk_xyzw (q_w q) (q_x q) (q_y q) (q_z q)))
    /\ (message <- numpy_to_quaternion Quaternion (Quat q) ;;
        quaternion_to_numpy message) = Ok q
    /\ numpy_to_quaternion Quaternion (Array (as_float_array q))
       = numpy_to_quaternion Quaternion (Quat q)
    /\ (can_cast dt float64 = true ->
        numpy_to_quaternion Quaternion (Array (mk_ndarray dt [4] [a; b; c; d]))
          = Ok (Msg_Quaternion (mk_xyzw a b c d))
        /\ (message <-
              numpy_to_quaternion Quaternion (Array (mk_ndarray dt [4] [a; b; c; d])) ;;
            quaternion_to_numpy message) = Ok (np_quaternion a b c d)).
Proof.
  intros [w i j k] dt a b c d.
  split; [reflexivity |]. split; [reflexivity |]. split; [reflexivity |].
  intro Hc.
  assert (H : numpy_to_quaternion Quaternion (Array (mk_ndarray dt [4] [a; b; c; d]))
              = Ok (Msg_Quaternion (mk_xyzw a b c d))).
  { unfold numpy_to_quaternion, converts_to_message. cast_check Hc. reflexivity. }
  split; [exact H |]. rewrite H. reflexivity.
Qed.

Lemma quaternion_numpy_roundtrip_witness :
  numpy_to_quaternion Quaternion (Array (mk_ndarray float32 [4] [0; 0; 0; 1]%float))
  = Ok (Msg_Quaternion (mk_xyzw 0 0 0 1)).
Proof.
  exact (proj1 (proj2 (proj2 (proj2
           (quaternion_numpy_roundtrip (np_quaternion 1 0 0 0) float32 0 0 0 1)))
           eq_refl)).
Defined.

(** X7.  Given an array, the quaternion encoder checks the cast before
    the shape: an array that fails the cast check against [float64], as
    every array of objects does, raises the cast error whatever its
    shape, and an array that passes it and whose shape is not (4,)
    raises the shape error.  For a class other than Quaternion the
    constructor refuses the four arguments. *)
Theorem numpy_to_quaternion_errors :
  forall (message_type : msg_class) (array : ndarray) (q : quaternion)
         (dt : dtype) (a b c d : float),
    (can_cast (min_scalar_type array) float64 = false ->
     numpy_to_quaternion message_type (Array array) = Err CastError)
    /\ (dtype_of array = object_ ->
        numpy_to_quaternion message_type (Array array) = Err CastError)
    /\ (can_cast (min_scalar_type array) float64 = true -> shape array <> [4] ->
        numpy_to_quaternion message_type (Array array) = Err ShapeError)
    /\ (message_type <> Quaternion ->
        numpy_to_quaternion message_type (Quat q) = Err (TypeError InvalidArguments)
        /\ (can_cast dt float64 = true ->
            numpy_to_quaternion message_type (Array (mk_ndarray dt [4] [a; b; c; d]))
            = Err (TypeError InvalidArguments))).
Proof.
  intros message_type array q dt a b c d.
  assert (Hcast : can_cast (min_scalar_type array) float64 = false ->
                  numpy_to_quaternion message_type (Array array) = Err CastError).
  { intro Hc. unfold numpy_to_quaternion, converts_to_message, _assert_is_castable.
    cbn [np_min_scalar_type np_can_cast]. rewrite Hc. reflexivity. }
  split; [exact Hcast |]. split; [| split].
  - intro Hd. apply Hcast. apply object_not_castable_float64. exact Hd.
  - intros Hc Hs. unfold numpy_to_quaternion, converts_to_message, _assert_is_castable.
    cbn [np_min_scalar_type np_can_cast]. rewrite Hc. cbn [negb bind].
    apply shape_eqb_neq in Hs. rewrite Hs. reflexivity.
  - intro Hm. split.
    + destruct message_type; try reflexivity. congruence.
    + intro Hc. unfold numpy_to_quaternion, converts_to_message. cast_check Hc.
      destruct message_type; try reflexivity. congruence.
Qed.

Lemma numpy_to_quaternion_errors_witness :
  numpy_to_quaternion Quaternion (Array (mk_ndarray object_ [4] [0; 0; 0; 1]%float))
    = Err CastError
  /\ numpy_to_quaternion Quaternion (Array (mk_ndarray object_ [3] [0; 0; 1]%float))
     = Err CastError
  /\ numpy_to_quaternion Quaternion (Array (mk_ndarray float64 [3] [0; 0; 1]%float))
     = Err ShapeError
  /\ numpy_to_quaternion Pose (Quat (np_quaternion 1 0 0 0))
     = Err (TypeError InvalidArguments).
Proof.
  split; [| split; [| split]].
  - exact (proj1 (numpy_to_quaternion_errors Quaternion
             (mk_ndarray object_ [4] [0; 0; 0; 1]%float)
             (np_quaternion 1 0 0 0) float64 0 0 0 0) eq_refl).
  - exact (proj1 (proj2 (numpy_to_quaternion_errors Quaternion
             (mk_ndarray object_ [3] [0; 0; 1]%float)
             (np_quaternion 1 0 0 0) float64 0 0 0 0)) eq_refl).
  - apply (proj1 (proj2 (proj2 (numpy_to_quaternion_errors Quaternion
             (mk_ndarray float64 [3] [0; 0; 1]%float)
             (np_quaternion 1 0 0 0) float64 0 0 0 0))));
      [reflexivity | discriminate].
  - refine (proj1 (proj2 (proj2 (proj2 (numpy_to_quaternion_errors Pose
             (mk_ndarray float64 [3] [0; 0; 1]%float)
             (np_quaternion 1 0 0 0) float64 0 0 0 0))) _)). discriminate.
Defined.

(** ** Inertia: the two round trips *)

Lemma python_float_castable (v : float) :
  can_cast (min_scalar_type_of_scalar (PyFloat v)) float64 = true.
Proof.
  unfold min_scalar_type_of_scalar, min_float_type.
  repeat match goal with |- context [if ?b then _ else _] => destruct b end;
    reflexivity.
Qed.

Lemma decoded_centre_encoded (centre : xyz) (homogeneous : bool) :
  numpy_to_vector Vector3 (xyz_array centre homogeneous) = Ok (Msg_Vector3 centre).
Proof. destruct centre, homogeneous; reflexivity. Qed.

(** X8.  Encoding what the decoder returns for an Inertia message gives
    the message back, in both modes of the decoder and from the stamped
    message as well: the tensor the decoder builds is symmetric, so the
    entry [2, 1] the encoder reads for iyz holds iyz. *)
Theorem inertia_message_roundtrip :
  forall (i : inertia) (header : Header) (homogeneous : bool),
    (decoded <- inertia_to_numpy (Msg_Inertia i) homogeneous ;;
     let '(mass, mass_center, inertia_tensor) := decoded in
     numpy_to_inertia Inertia (PyFloat mass) mass_center inertia_tensor)
    = Ok (Msg_Inertia i)
    /\ (decoded <- inertia_to_numpy (Msg_InertiaStamped header i) homogeneous ;;
        let '(mass, mass_center, inertia_tensor) := decoded in
        numpy_to_inertia Inertia (PyFloat mass) mass_center inertia_tensor)
       = Ok (Msg_Inertia i).
Proof.
  intros i header homogeneous.
  assert (H : inertia_to_numpy (Msg_InertiaStamped header i) homogeneous
              = inertia_to_numpy (Msg_Inertia i) homogeneous) by reflexivity.
  rewrite H, inertia_decoded. cbn [bind]. unfold tensor_of.
  rewrite (numpy_to_inertia_3x3 (PyFloat (m i)) _ (com i) float64
             [ixx i; ixy i; ixz i; ixy i; iyy i; iyz i; ixz i; iyz i; izz i]
             (python_float_castable (m i)) eq_refl
             (decoded_centre_encoded (com i) homogeneous) eq_refl).
  destruct i; split; reflexivity.
Qed.

(** X9.  The encoder reads six entries of the tensor, [0,0], [0,1],
    [0,2], [1,1], [2,1] and [2,2]: for a tensor of dtype [float64] and
    a centre of a floating-point dtype or of an integer dtype of up to
    32 bits, decoding the message it builds returns the mass as a
    float, the centre as a [float64] array and the [float64] tensor of
    these six entries mirrored across the diagonal, which is the tensor
    given when that one is symmetric. *)
Theorem inertia_array_roundtrip :
  forall (mass : scalar) (dc : dtype) (a b c : float) (t : list float),
    can_cast (min_scalar_type_of_scalar mass) float64 = true ->
    held_by_value dc = true ->
    length t = 9 ->
    (message <- numpy_to_inertia Inertia mass (mk_ndarray dc [3] [a; b; c])
                  (mk_ndarray float64 [3; 3] t) ;;
     inertia_to_numpy message false)
    = Ok (py_float mass, mk_ndarray float64 [3] [a; b; c],
          mk_ndarray float64 [3; 3] (mirrored t))
    /\ (nth 3 t 0%float = nth 1 t 0%float ->
        nth 6 t 0%float = nth 2 t 0%float ->
        nth 5 t 0%float = nth 7 t 0%float ->
        mirrored t = t).
Proof.
  intros mass dc a b c t Hm Hdc Hlen. split.
  - rewrite (numpy_to_inertia_3x3 mass _ (mk_xyz a b c) float64 t Hm eq_refl);
      [reflexivity | | exact Hlen].
    apply (numpy_to_vector_3 Vector3);
      [simpl; auto | apply held_by_value_castable; exact Hdc].
  - do 10 (destruct t as [| ? t]; try discriminate Hlen).
    cbn [nth mirrored]. intros -> -> ->. reflexivity.
Qed.

Lemma inertia_array_roundtrip_witness :
  (message <- numpy_to_inertia Inertia (PyInt 2)
                (mk_ndarray int32 [3] [1; 2; 3]%float)
                (mk_ndarray float64 [3; 3] [11; 12; 13; 21; 22; 23; 31; 32; 33]%float) ;;
   inertia_to_numpy message false)
  = Ok (2%float, mk_ndarray float64 [3] [1; 2; 3]%float,
        mk_ndarray float64 [3; 3] [11; 12; 13; 12; 22; 32; 13; 32; 33]%float).
Proof.
  exact (proj1 (inertia_array_roundtrip (PyInt 2) int32 1 2 3
                  [11; 12; 13; 21; 22; 23; 31; 32; 33]%float
                  eq_refl eq_refl eq_refl)).
Defined.

(** ** Polygons: from the message and back *)

Lemma map_nth_all {A B : Type} (f : A -> B) (l : list A) (a0 : A) :
  map (fun j => f (nth j l a0)) (seq 0 (length l)) = map f l.
Proof.
  rewrite <- (map_map (fun j => nth j l a0) f). f_equal.
  apply nth_ext with (d := a0) (d' := a0).
  - rewrite length_map, length_seq. reflexivity.
  - intros j Hj. rewrite length_map, length_seq in Hj.
    rewrite (nth_indep _ a0 (nth 0 l a0)) by (rewrite length_map, length_seq; exact Hj).
    rewrite (map_nth (fun j => nth j l a0) (seq 0 (length l)) 0 j).
    rewrite seq_nth by exact Hj. reflexivity.
Qed.

Lemma components_stacked (ps : list xyz) (homogeneous : bool) :
  Forall float32_point ps ->
  map (cast float32)
    (flat_map data (map (fun p => xyz_array32 p homogeneous) ps))
  = flat_map (components homogeneous) ps.
Proof.
  intro Hps. rewrite flat_map_map, map_flat_map.
  apply flat_map_ext_in. intros p Hp.
  rewrite Forall_forall in Hps. destruct (Hps p Hp) as (Hx & Hy & Hz).
  unfold is_float32 in Hx, Hy, Hz.
  destruct homogeneous; unfold xyz_array32, np_array, components;
    cbn [data map cast]; rewrite !Hx, !Hy, !Hz; reflexivity.
Qed.

(** The decoded polygon, element by element. *)
Lemma polygon_message_decoded (ps : list xyz) (homogeneous : bool) :
  ps <> [] ->
  Forall float32_point ps ->
  polygon_to_numpy (Msg_Polygon ps) homogeneous = Ok (polygon_matrix ps homogeneous).
Proof.
  intros Hne Hps.
  unfold polygon_to_numpy, converts_to_numpy. rewrite _unstamp_unwrapped.
  cbn [unwrapped stamped_payload bind getattr_list].
  rewrite polygon_points_decoded. cbn [bind]. f_equal.
  rewrite (np_stack_rows _ (if homogeneous then 4 else 3)).
  - rewrite components_stacked by exact Hps. rewrite length_map.
    unfold transpose, polygon_matrix. cbn [shape dtype_of data]. f_equal.
    assert (Hcol : forall i, i < (if homogeneous then 4 else 3) ->
              column (flat_map (components homogeneous) ps) (length ps)
                (if homogeneous then 4 else 3) i
              = map (fun p => nth i (components homogeneous p) 0%float) ps).
    { intros i Hi. unfold column.
      rewrite <- (map_nth_all (fun p => nth i (components homogeneous p) 0%float)
                    ps (mk_xyz 0 0 0)).
      apply map_ext_in. intros j Hj. apply in_seq in Hj.
      apply nth_flat_map_blocks; [| lia | exact Hi].
      intro p. destruct homogeneous; reflexivity. }
    destruct homogeneous; cbn [seq flat_map];
      rewrite !Hcol by lia; cbn [components nth]; rewrite ?app_nil_r; reflexivity.
  - destruct ps; [congruence | discriminate].
  - intros row Hrow. apply in_map_iff in Hrow. destruct Hrow as (p & <- & _).
    destruct homogeneous; reflexivity.
Qed.

(** Element [j] of each row of four lists of one length laid end to end. *)
Lemma nth_rows (l0 l1 l2 l3 : list float) (n j : nat) :
  length l0 = n -> length l1 = n -> length l2 = n -> j < n ->
  nth (0 * n + j) (l0 ++ l1 ++ l2 ++ l3) 0%float = nth j l0 0%float
  /\ nth (1 * n + j) (l0 ++ l1 ++ l2 ++ l3) 0%float = nth j l1 0%float
  /\ nth (2 * n + j) (l0 ++ l1 ++ l2 ++ l3) 0%float = nth j l2 0%float
  /\ nth (3 * n + j) (l0 ++ l1 ++ l2 ++ l3) 0%float = nth j l3 0%float.
Proof.
  intros H0 H1 H2 Hj. repeat split.
  - rewrite app_nth1 by lia. reflexivity.
  - rewrite app_nth2 by lia. rewrite app_nth1 by lia. f_equal. lia.
  - rewrite app_nth2 by lia. rewrite app_nth2 by lia. rewrite app_nth1 by lia.
    f_equal. lia.
  - rewrite app_nth2 by lia. rewrite app_nth2 by lia. rewrite app_nth2 by lia.
    f_equal. lia.
Qed.

Lemma points_of_polygon_matrix (ps : list xyz) (homogeneous : bool) :
  points_of (data (polygon_matrix ps homogeneous))
    (if homogeneous then 4 else 3) (length ps) = ps.
Proof.
  unfold points_of.
  etransitivity;
    [| exact (eq_trans (map_nth_all (fun p => p) ps (mk_xyz 0 0 0)) (map_id ps))].
  apply map_ext_in. intros j Hj. apply in_seq in Hj.
  unfold polygon_matrix. cbn [data].
  destruct (nth_rows (map x ps) (map y ps) (map z ps)
              (if homogeneous then map (fun _ => 1%float) ps else [])
              (length ps) j) as (E0 & E1 & E2 & _);
    try apply length_map; [lia |].
  unfold point_of_column, column.
  destruct homogeneous; cbn [seq map nth]; rewrite E0, E1, E2;
    rewrite (nth_indep (map x ps) 0%float (x (mk_xyz 0 0 0))),
            (nth_indep (map y ps) 0%float (y (mk_xyz 0 0 0))),
            (nth_indep (map z ps) 0%float (z (mk_xyz 0 0 0)))
      by (rewrite length_map; lia);
    rewrite !map_nth; destruct (nth j ps (mk_xyz 0 0 0)); reflexivity.
Qed.

(** X10.  A polygon with at least one point, the fields of its points
    [float32] numbers, is decoded to the matrix with a row of x, a row
    of y, a row of z and, in homogeneous mode, a row of ones; encoding
    this matrix gives the polygon back.  The polygon without points is
    decoded to an array of shape (0,), which the encoder refuses. *)
Theorem polygon_message_roundtrip :
  forall (ps : list xyz) (header : Header) (homogeneous : bool),
    (ps <> [] -> Forall float32_point ps ->
     polygon_to_numpy (Msg_Polygon ps) homogeneous
       = Ok (polygon_matrix ps homogeneous)
     /\ polygon_to_numpy (Msg_PolygonStamped header ps) homogeneous
        = Ok (polygon_matrix ps homogeneous)
     /\ numpy_to_polygon Polygon (polygon_matrix ps homogeneous)
        = Ok (Msg_Polygon ps))
    /\ polygon_to_numpy (Msg_Polygon []) homogeneous = Ok (mk_ndarray float32 [0] [])
    /\ numpy_to_polygon Polygon (mk_ndarray float32 [0] []) = Err ShapeError.
Proof.
  intros ps header homogeneous. split; [| split; [reflexivity | reflexivity]].
  intros Hne Hps.
  assert (Hd := polygon_message_decoded ps homogeneous Hne Hps).
  split; [exact Hd |]. split; [exact Hd |].
  rewrite <- (points_of_polygon_matrix ps homogeneous) at 2.
  unfold polygon_matrix at 1.
  apply numpy_to_polygon_ok.
  - reflexivity.
  - destruct homogeneous; [right | left]; reflexivity.
  - destruct ps; [congruence | simpl; lia].
  - intros Hr j Hj. destruct homogeneous; [| discriminate Hr].
    unfold polygon_matrix. cbn [data].
    destruct (nth_rows (map x ps) (map y ps) (map z ps)
                (map (fun _ => 1%float) ps) (length ps) j) as (_ & _ & _ & E3);
      try apply length_map; [exact Hj |].
    rewrite E3.
    rewrite (nth_indep _ 0%float ((fun _ : xyz => 1%float) (mk_xyz 0 0 0)))
      by (rewrite length_map; exact Hj).
    rewrite (map_nth (fun _ : xyz => 1%float) ps (mk_xyz 0 0 0) j). reflexivity.
Qed.

Lemma polygon_message_roundtrip_witness :
  (points <- polygon_to_numpy
               (Msg_Polygon [mk_xyz 1 2 3; mk_xyz 4 5 6.5]%float) true ;;
   numpy_to_polygon Polygon points)
  = Ok (Msg_Polygon [mk_xyz 1 2 3; mk_xyz 4 5 6.5]%float).
Proof.
  destruct (proj1 (polygon_message_roundtrip
                     [mk_xyz 1 2 3; mk_xyz 4 5 6.5]%float zero_Header true))
    as (Hd & _ & He).
  - discriminate.
  - repeat constructor.
  - rewrite Hd. exact He.
Defined.

(** ** Poses and transforms *)

(** X11.  For a pose or a transform, stamped or not, the decoder returns
    without the homogeneous flag the position as a [float64] array and
    the quaternion built from the rotation field, and never consults the
    rotation-matrix conversion.  With the flag, it returns the 4x4
    matrix that holds the rotation matrix in its upper left corner, the
    position in its last column and (0, 0, 0, 1) in its last row; an
    exception of the rotation-matrix conversion is raised as it is. *)
Theorem frame_to_numpy_result :
  forall (as_rotation_matrix : quaternion -> result ndarray)
         (message : msg) (p : xyz) (o : xyzw),
    frame_parts message = Some (p, o) ->
    frame_to_numpy as_rotation_matrix message false
      = Ok (PositionRotation (xyz_array p false) (decoded_rotation o))
    /\ (forall (dt : dtype) (R : list float),
          as_rotation_matrix (decoded_rotation o) = Ok (mk_ndarray dt [3; 3] R) ->
          frame_to_numpy as_rotation_matrix message true
            = Ok (Homogeneous (homogeneous_matrix R p)))
    /\ (forall e : exn,
          as_rotation_matrix (decoded_rotation o) = Err e ->
          frame_to_numpy as_rotation_matrix message true = Err e).
Proof.
  intros rot message p o Hparts.
  assert (Hm : unwrapped message = Msg_Pose (mk_pose p o)
               \/ unwrapped message = Msg_Transform (mk_transform p o)).
  { unfold frame_parts in Hparts.
    destruct (unwrapped message) as
      [ | | | | | | | | | | | [p' o'] | [p' o'] | | | | | | | | | | | | ];
      try discriminate Hparts; cbn in Hparts;
      injection Hparts as -> ->; [left | right]; reflexivity. }
  unfold frame_to_numpy, converts_to_numpy, decoded_rotation in *.
  rewrite _unstamp_unwrapped.
  split; [| split].
  - destruct Hm as [-> | ->]; destruct p, o; reflexivity.
  - intros dt R Hrot.
    destruct Hm as [-> | ->]; destruct p, o; cbn; cbn in Hrot; rewrite Hrot;
      reflexivity.
  - intros e Hrot.
    destruct Hm as [-> | ->]; destruct p, o; cbn; cbn in Hrot; rewrite Hrot;
      reflexivity.
Qed.

Lemma frame_to_numpy_result_witness :
  frame_to_numpy (fun _ => Ok (eye 3 float64))
    (Msg_TransformStamped zero_Header "base"
       (mk_transform (mk_xyz 1 2 3) (mk_xyzw 0 0 0 1))) true
  = Ok (Homogeneous
          (mk_ndarray float64 [4; 4]
             [1; 0; 0; 1;
              0; 1; 0; 2;
              0; 0; 1; 3;
              0; 0; 0; 1]%float)).
Proof.
  exact (proj1 (proj2 (frame_to_numpy_result (fun _ => Ok (eye 3 float64))
                  (Msg_TransformStamped zero_Header "base"
                     (mk_transform (mk_xyz 1 2 3) (mk_xyzw 0 0 0 1)))
                  (mk_xyz 1 2 3) (mk_xyzw 0 0 0 1) eq_refl))
           float64 (data (eye 3 float64)) eq_refl).
Defined.

(** X12.  What the frame encoder raises is settled by its arguments
    alone, whatever the class asked for and whatever the conversion from
    a rotation matrix does: without arguments or with three or more, the
    arity error; with two, the TypeError of the call of
    [numpy_to_vector] with the position alone; with one array, the shape
    error unless the shape is (4,4), and the error of the truth value of
    an array if it is, for an array of objects as for one of numbers. *)
Theorem numpy_to_frame_outcomes :
  forall (from_rotation_matrix : ndarray -> result quaternion)
         (message_type : msg_class),
    numpy_to_frame from_rotation_matrix message_type [] = Err ArityError
    /\ (forall a b c rest,
          numpy_to_frame from_rotation_matrix message_type (a :: b :: c :: rest)
          = Err ArityError)
    /\ (forall position rotation,
          numpy_to_frame from_rotation_matrix message_type [position; rotation]
          = Err (TypeError (MissingArgument "numpy_to_vector" "array")))
    /\ (forall matrix,
          numpy_to_frame from_rotation_matrix message_type [Array matrix]
          = if shape_eqb (shape matrix) [4; 4]
            then Err (ValueError AmbiguousTruthValue)
            else Err ShapeError).
Proof.
  intros f message_type.
  split; [reflexivity |]. split; [| split].
  - intros a b c rest. unfold numpy_to_frame, converts_to_message.
    destruct a; reflexivity.
  - intros position rotation. unfold numpy_to_frame, converts_to_message.
    destruct position; reflexivity.
  - intro matrix. unfold numpy_to_frame, converts_to_message.
    rewrite _assert_is_castable_class. cbn [bind].
    destruct (shape_eqb (shape matrix) [4; 4]) eqn:E; [| reflexivity].
    apply shape_eqb_eq in E. unfold row. rewrite E. reflexivity.
Qed.

(** ** The cast check on Python numbers *)

(** X13.  The cast check on a Python number: against [float64] every
    float passes, and an integer passes if and only if it lies in the
    range of the 64-bit integer dtypes, from -2^63 to 2^64 - 1; against
    [float32] an integer passes if and only if it lies in the range of
    the 16-bit ones, from -32768 to 65535.  The check raises nothing but
    the cast error. *)
Theorem assert_is_castable_number :
  forall (v : float) (n : Z) (array : array_like) (dtype : dtype_like),
    _assert_is_castable (Num (PyFloat v)) (Dtype float64) = Ok tt
    /\ _assert_is_castable (Num (PyInt n)) (Dtype float64)
       = (if (-9223372036854775808 <=? n)%Z && (n <=? 18446744073709551615)%Z
          then Ok tt else Err CastError)
    /\ _assert_is_castable (Num (PyInt n)) (Dtype float32)
       = (if (-32768 <=? n)%Z && (n <=? 65535)%Z then Ok tt else Err CastError)
    /\ (_assert_is_castable array dtype = Ok tt
        \/ _assert_is_castable array dtype = Err CastError).
Proof.
  intros v n array dtype.
  split; [| split; [| split]].
  - unfold _assert_is_castable. cbn [np_min_scalar_type np_can_cast].
    rewrite python_float_castable. reflexivity.
  - unfold _assert_is_castable, min_int_type.
    cbn [np_min_scalar_type np_can_cast min_scalar_type_of_scalar].
    unfold min_int_type.
    repeat match goal with
           | |- context [(?a <=? ?b)%Z] => destruct (Z.leb_spec a b)
           end; try reflexivity; lia.
  - unfold _assert_is_castable, min_int_type.
    cbn [np_min_scalar_type np_can_cast min_scalar_type_of_scalar].
    unfold min_int_type.
    repeat match goal with
           | |- context [(?a <=? ?b)%Z] => destruct (Z.leb_spec a b)
           end; try reflexivity; lia.
  - unfold _assert_is_castable.
    destruct (np_can_cast (np_min_scalar_type array) dtype); [left | right]; reflexivity.
Qed.

(** ** What the decoders return *)

(** X14.  The arrays of the decoders: a vector or point is decoded to a
    well-formed 1-D array of three numbers, or of four with the
    homogeneous flag, the last of which is then 1, of dtype [float32]
    for a Point32 and [float64] otherwise; the two arrays of a
    kinematics message are of this kind, of dtype [float64]; the
    covariance is a well-formed (6,6) array of dtype [float64] that
    holds the 36 numbers of the field in their order. *)
Theorem decoded_arrays :
  forall (message : msg) (homogeneous : bool),
    (forall array,
       vector_to_numpy message homogeneous = Ok array ->
       shape array = [if homogeneous then 4 else 3]
       /\ well_formed array
       /\ dtype_of array
          = (if is_ (class_of message) Point32 then float32 else float64)
       /\ (homogeneous = true -> item array 3 = Ok 1%float))
    /\ (forall linear angular,
          kinematics_to_numpy message homogeneous = Ok (linear, angular) ->
          Forall (fun array =>
                    shape array = [if homogeneous then 4 else 3]
                    /\ well_formed array
                    /\ dtype_of array = float64
                    /\ (homogeneous = true -> item array 3 = Ok 1%float))
                 [linear; angular])
    /\ (forall linear angular matrix,
          kinematics_with_covariance_to_numpy message homogeneous
            = Ok (linear, angular, matrix) ->
          shape matrix = [6; 6]
          /\ well_formed matrix
          /\ dtype_of matrix = float64
          /\ data matrix = covariance_of message).
Proof.
  intros message homogeneous. split; [| split].
  - intros array H.
    destruct message; try discriminate H;
      destruct homogeneous; cbn in H; injection H as <-;
      repeat split; intro; discriminate.
  - intros linear angular H.
    destruct message; try discriminate H;
      destruct homogeneous; cbn in H; injection H as <- <-;
      repeat constructor; intro; discriminate.
  - intros linear angular matrix H.
    destruct message; try discriminate H;
      unfold covariance_of; cbn [unwrapped stamped_payload];
      match goal with
      | c : with_covariance, header : Header |- _ =>
          rewrite (covariance_decoding c header _ homogeneous) in H
            by (simpl; tauto)
      | c : with_covariance |- _ =>
          rewrite (covariance_decoding c zero_Header _ homogeneous) in H
            by (simpl; tauto)
      end.
    all: unfold reshape, np_array in H; cbn [data dtype_of] in H;
      rewrite map_cast_float64 in H;
      match type of H with
      | context [if ?b then _ else _] => destruct b eqn:E
      end; try discriminate H;
      cbn in H; injection H as _ _ <-;
      apply Nat.eqb_eq in E;
      repeat split; unfold well_formed; cbn [data shape size_of_shape fold_right];
      exact E.
Qed.

Lemma decoded_arrays_witness :
  shape (mk_ndarray float32 [4] [1; 2; 3; 1]%float) = [4]
  /\ item (mk_ndarray float32 [4] [1; 2; 3; 1]%float) 3 = Ok 1%float.
Proof.
  destruct (proj1 (decoded_arrays (Msg_Point32 (mk_xyz 1 2 3)) true)
              (mk_ndarray float32 [4] [1; 2; 3; 1]%float) eq_refl)
    as (Hs & _ & _ & Hlast).
  split; [exact Hs | exact (Hlast eq_refl)].
Defined.

Lemma length_flat_map_blocks {A : Type} (f : A -> list float) (k : nat) (l : list A) :
  (forall a, length (f a) = k) -> length (flat_map f l) = length l * k.
Proof.
  intro Hk. induction l as [| a l IH]; [reflexivity |].
  cbn [flat_map length]. rewrite length_app, Hk, IH. reflexivity.
Qed.

(** X15.  Every polygon is decoded, stamped or not and whatever numbers
    its points hold: to a well-formed [float32] array with one column
    per point and three rows, or four with the homogeneous flag, when
    the polygon has a point, and to the empty array of shape (0,) when
    it has none. *)
Theorem polygon_to_numpy_shape :
  forall (ps : list xyz) (header : Header) (homogeneous : bool),
    exists points : ndarray,
      polygon_to_numpy (Msg_Polygon ps) homogeneous = Ok points
      /\ polygon_to_numpy (Msg_PolygonStamped header ps) homogeneous = Ok points
      /\ dtype_of points = float32
      /\ well_formed points
      /\ shape points
         = match ps with
           | [] => [0]
           | _ :: _ => [(if homogeneous then 4 else 3); length ps]
           end.
Proof.
  intros ps header homogeneous.
  assert (Hd : polygon_to_numpy (Msg_Polygon ps) homogeneous
               = Ok (transpose
                       (np_stack (map (fun p => xyz_array32 p homogeneous) ps)
                          float32))).
  { unfold polygon_to_numpy, converts_to_numpy. rewrite _unstamp_unwrapped.
    cbn [unwrapped stamped_payload bind getattr_list].
    rewrite polygon_points_decoded. reflexivity. }
  eexists. split; [exact Hd |]. split; [exact Hd |].
  destruct ps as [| p ps]; [repeat split |].
  rewrite (np_stack_rows _ (if homogeneous then 4 else 3)).
  - unfold transpose, well_formed.
    cbn [shape dtype_of data size_of_shape fold_right].
    rewrite !length_map. split; [reflexivity |]. split; [| reflexivity].
    rewrite (length_flat_map_blocks _ (length (p :: ps))).
    + rewrite length_seq. lia.
    + intro j. unfold column. rewrite length_map, length_seq. reflexivity.
  - discriminate.
  - intros row Hrow. apply in_map_iff in Hrow. destruct Hrow as (q & <- & _).
    destruct homogeneous; reflexivity.
Qed.

(** ** The encoders that raise on every input *)

(** X16.  The encoder of the messages with covariance raises the
    TypeError of the call of [numpy_to_vector] with one argument on
    every input, before the covariance is looked at.  So no message goes
    through a decoder and the encoder registered for its class when the
    encoder is that of the kinematics messages, of the messages with
    covariance or of the poses and transforms. *)
Theorem registered_roundtrips_fail :
  forall (as_rotation_matrix : quaternion -> result ndarray)
         (from_rotation_matrix : ndarray -> result quaternion)
         (message : msg) (homogeneous : bool) (message_type : msg_class)
         (linear angular covariance : ndarray),
    numpy_to_kinematics_with_covariance message_type linear angular covariance
      = Err (TypeError (MissingArgument "numpy_to_vector" "array"))
    /\ is_ok (decoded <- kinematics_to_numpy message homogeneous ;;
              numpy_to_kinamatics message_type (fst decoded) (snd decoded)) = false
    /\ is_ok (decoded <- kinematics_with_covariance_to_numpy message homogeneous ;;
              let '(linear, angular, covariance) := decoded in
              numpy_to_kinematics_with_covariance message_type
                linear angular covariance) = false
    /\ is_ok (decoded <- frame_to_numpy as_rotation_matrix message homogeneous ;;
              numpy_to_frame from_rotation_matrix message_type
                match decoded with
                | Homogeneous as_matrix => [Array as_matrix]
                | PositionRotation position rotation =>
                    [Array position; Quat rotation]
                end) = false.
Proof.
  intros rot from_rot message homogeneous message_type linear angular covariance.
  split; [reflexivity |]. split; [| split].
  - destruct (kinematics_to_numpy message homogeneous); reflexivity.
  - destruct (kinematics_with_covariance_to_numpy message homogeneous)
      as [[[l a] c] | e]; reflexivity.
  - destruct (frame_to_numpy rot message homogeneous) as [decoded | e];
      [| reflexivity].
    cbn [bind]. apply numpy_to_frame_never_returns.
Qed.
